(** * validate_lite_configs: the lite-preset configuration checker

    A shallow embedding of [scripts/validate_lite_configs.py] and the
    properties of its loader, its cross-reference validation and its
    command-line entry point.

    Modelling conventions.
    - A Python [str] is a [string] holding its UTF-8 bytes.  The hyphen is a
      single byte that never occurs inside a multi-byte sequence, and the
      bytewise order of UTF-8 text is the code-point order Python compares
      by, so [split("-")] and [<] keep their meaning.
    - A decoded YAML document is a [value]: scalars (null, booleans,
      integers, strings), sequences and mappings.  Mapping keys are scalars
      (PyYAML's safe loader refuses unhashable keys); a mapping is an
      association list in insertion order, the order [dict.keys()] iterates
      in.  Floats, timestamps and binary scalars are outside the fragment.
    - Exceptions are values of [exn]; code that may raise returns a
      [result].
    - Two functions of the Python runtime are parameters of the
      development: [repr] on strings (its quoting and escaping rules) and
      [pathlib.Path(...).stem]. *)

From Stdlib Require Import ZArith String Ascii DecimalString Sorted Permutation.
From stdpp Require Import gmap strings list.

Local Open Scope string_scope.
Local Open Scope list_scope.
Local Open Scope Z_scope.

(** ** Exceptions and the error monad *)

Inductive exn : Type :=
| RuntimeError (msg : string)
| TypeError (msg : string).

(** [str(e)] for an exception built from one message argument. *)
Definition exn_str (e : exn) : string :=
  match e with
  | RuntimeError msg => msg
  | TypeError msg => msg
  end.

Inductive result (A : Type) : Type :=
| Ok (a : A)
| Err (e : exn).
Arguments Ok {A} a.
Arguments Err {A} e.

#[global] Instance result_ret : MRet result := λ A a, Ok a.
#[global] Instance result_bind : MBind result :=
  λ A B f m, match m with Ok a => f a | Err e => Err e end.

Definition raise {A : Type} (e : exn) : result A := Err e.

(** [if cond: raise e] *)
Definition raise_if (cond : bool) (e : exn) : result unit :=
  if cond then Err e else Ok tt.

(** ** Decoded YAML values *)

Inductive scalar : Type :=
| SNone
| SBool (b : bool)
| SInt (z : Z)
| SStr (s : string).

#[local] Set Warnings "-register-all".
Inductive value : Type :=
| Scalar (k : scalar)
| Seq (items : list value)
| Map (entries : list (scalar * value)).

Abbreviation dict := (list (scalar * value)).

Definition VNone : value := Scalar SNone.
Definition VStr (s : string) : value := Scalar (SStr s).
Definition VInt (z : Z) : value := Scalar (SInt z).

(** [isinstance(v, str)], [isinstance(v, list)], [isinstance(v, dict)] *)
Definition is_str (v : value) : bool :=
  match v with Scalar (SStr _) => true | _ => false end.
Definition is_list (v : value) : bool :=
  match v with Seq _ => true | _ => false end.
Definition is_dict (v : value) : bool :=
  match v with Map _ => true | _ => false end.

Definition as_str (v : value) : option string :=
  match v with Scalar (SStr s) => Some s | _ => None end.

(** [type(x).__name__] *)
Definition scalar_type_name (k : scalar) : string :=
  match k with
  | SNone => "NoneType"
  | SBool _ => "bool"
  | SInt _ => "int"
  | SStr _ => "str"
  end.

Definition type_name (v : value) : string :=
  match v with
  | Scalar k => scalar_type_name k
  | Seq _ => "list"
  | Map _ => "dict"
  end.

(** [str(type(x))], as an f-string renders [{type(data)}]. *)
Definition type_str (v : value) : string :=
  "<class '" +:+ type_name v +:+ "'>".

(** [d.get(key)] for a string key: a string key is equal to no key of
    another type, and the first entry of the association list is the live
    one. *)
Fixpoint dict_get (d : dict) (key : string) : option value :=
  match d with
  | [] => None
  | (SStr s, v) :: rest => if String.eqb s key then Some v else dict_get rest key
  | _ :: rest => dict_get rest key
  end.

(** [d.get(key, dflt)] *)
Definition dict_get_default (d : dict) (key : string) (dflt : value) : value :=
  default dflt (dict_get d key).

(** [d.keys()], in insertion order. *)
Definition dict_keys (d : dict) : list scalar := d.*1.

(** ** Strings: [sep.join], [split], the base identifier *)

(** [sep.join(parts)] *)
Fixpoint join (sep : string) (parts : list string) : string :=
  match parts with
  | [] => ""
  | [p] => p
  | p :: rest => p +:+ sep +:+ join sep rest
  end.

(** [s.split(sep)] for a one-character separator: the pieces between the
    occurrences of [sep], so a string without [sep] gives one piece. *)
Fixpoint split_on (sep : ascii) (s : string) : list string :=
  match s with
  | EmptyString => [""]
  | String c rest =>
      if Ascii.eqb c sep then "" :: split_on sep rest
      else match split_on sep rest with
           | piece :: pieces => String c piece :: pieces
           | [] => [String c ""]
           end
  end.

Definition hyphen : ascii := "-"%char.

(** [s.split("-")[0]] *)
Definition base_identifier (s : string) : string :=
  match split_on hyphen s with
  | piece :: _ => piece
  | [] => ""
  end.

(** [c in s] for a character. *)
Fixpoint contains_char (c : ascii) (s : string) : bool :=
  match s with
  | EmptyString => false
  | String c' rest => Ascii.eqb c' c || contains_char c rest
  end.

(** ** [str], [<] and [sorted] on scalars *)

(** [str(n)] for an integer: decimal digits, with a leading minus sign for a
    negative one. *)
Definition int_str (z : Z) : string := NilZero.string_of_int (Z.to_int z).

(** [str(k)] *)
Definition scalar_str (k : scalar) : string :=
  match k with
  | SNone => "None"
  | SBool true => "True"
  | SBool false => "False"
  | SInt z => int_str z
  | SStr s => s
  end.

(** [bool] is a subclass of [int]: [True] and [False] compare as 1 and 0. *)
Definition scalar_num (k : scalar) : option Z :=
  match k with
  | SBool b => Some (if b then 1 else 0)
  | SInt z => Some z
  | _ => None
  end.

Definition unsupported_lt (x y : scalar) : exn :=
  TypeError ("'<' not supported between instances of '" +:+ scalar_type_name x
             +:+ "' and '" +:+ scalar_type_name y +:+ "'").

(** [x < y]: numbers compare with numbers, strings with strings by code
    points; every other pairing, [None] included, raises [TypeError]. *)
Definition py_lt (x y : scalar) : result bool :=
  match x, y with
  | SStr a, SStr b => Ok (String.ltb a b)
  | _, _ =>
      match scalar_num x, scalar_num y with
      | Some a, Some b => Ok (a <? b)
      | _, _ => Err (unsupported_lt x y)
      end
  end.

(** [sorted(l)] returns a new list in ascending order of [<], stable, and
    lets the [TypeError] of an unsupported comparison escape.  The model is
    an insertion sort: each element in turn is placed before the first
    element of the sorted prefix that it is smaller than.  On a two-element
    list this performs the one comparison CPython performs, [l[1] < l[0]];
    on longer lists of mixed types the pair named in the [TypeError] is the
    first one this pass meets. *)
Fixpoint insert_sorted (x : scalar) (prefix : list scalar) : result (list scalar) :=
  match prefix with
  | [] => Ok [x]
  | y :: rest =>
      b ← py_lt x y;
      if b : bool then Ok (x :: y :: rest)
      else rest' ← insert_sorted x rest; Ok (y :: rest')
  end.

Fixpoint sort_into (prefix l : list scalar) : result (list scalar) :=
  match l with
  | [] => Ok prefix
  | x :: rest => prefix' ← insert_sorted x prefix; sort_into prefix' rest
  end.

Definition py_sorted (l : list scalar) : result (list scalar) := sort_into [] l.

(** Two scalars are orderable when [<] is defined between them. *)
Definition orderable (x y : scalar) : bool :=
  match x, y with
  | SStr _, SStr _ => true
  | _, _ => bool_decide (is_Some (scalar_num x) ∧ is_Some (scalar_num y))
  end.

(** The order [sorted] arranges orderable scalars in. *)
Definition scalar_le (x y : scalar) : Prop :=
  match x, y with
  | SStr a, SStr b => String.leb a b = true
  | _, _ =>
      match scalar_num x, scalar_num y with
      | Some a, Some b => a ≤ b
      | _, _ => False
      end
  end.

(** ** The script *)

Definition newline : string := String (ascii_of_nat 10) "".

(** What opening and decoding a file gives: an exception with its text, or
    the decoded document ([Scalar SNone] for an empty one). *)
Inductive read_outcome : Type :=
| ReadError (cause : string)
| Decoded (data : value).

(** A required file as the script observes it: [p.exists()] and the outcome
    of [open] followed by [yaml.safe_load]. *)
Record file : Type := File { f_exists : bool; f_read : read_outcome }.

(** The file system below [ROOT]. *)
Record world : Type := World {
  root : string;
  start_lite_file : file;
  assign_lite_file : file;
  task_assembly_file : file
}.

(** Exit status and the text written to the two streams. *)
Record outcome : Type := Outcome {
  exit_status : Z;
  stdout : string;
  stderr : string
}.

(** [str(ROOT / rel)] for an absolute [ROOT]. *)
Definition under (rt rel : string) : string :=
  if String.eqb rt "/" then "/" +:+ rel else rt +:+ "/" +:+ rel.

Definition is_none (v : value) : bool :=
  match v with Scalar SNone => true | _ => false end.

(** [load_yaml], lines 25-35. *)
Definition load_yaml (path : string) (r : read_outcome) : result dict :=
  match r with
  | ReadError cause =>
      raise (RuntimeError ("Failed to parse YAML: " +:+ path +:+ ": " +:+ cause))
  | Decoded data =>
      if is_none data then Ok []
      else match data with
           | Map entries => Ok entries
           | _ => raise (RuntimeError ("Expected mapping at top-level in " +:+ path
                                       +:+ ", got " +:+ type_str data))
           end
  end.

Definition import_error : exn :=
  RuntimeError "configs/tasks/task_assembly.yaml must have a list field: import".
Definition start_error : exn :=
  RuntimeError "configs/start_task_lite.yaml must have non-empty mapping field: start".
Definition assignments_error : exn :=
  RuntimeError "configs/assignments/lite.yaml must have a non-empty list field: assignments".
Definition not_mapping_error : exn :=
  RuntimeError "Each assignment must be a mapping".
Definition task_type_error : exn :=
  RuntimeError "assignment.task must be a string or list".
Definition start_unknown_prefix : string :=
  "start_task_lite.yaml references tasks not present in task_assembly imports: ".
Definition assign_unknown_prefix : string :=
  "assignments/lite.yaml references tasks not present in task_assembly imports: ".

(** ** Instances of the runtime functions, for concrete runs *)

(** [repr(s)] when [s] consists of printable characters other than quotes
    and the backslash: the text between single quotes. *)
Definition plain_repr (s : string) : string := "'" +:+ s +:+ "'".

(** [s.rfind(c)], [None] standing for -1. *)
Fixpoint last_index (c : ascii) (s : string) : option nat :=
  match s with
  | EmptyString => None
  | String c' rest =>
      match last_index c rest with
      | Some i => Some (S i)
      | None => if Ascii.eqb c' c then Some O else None
      end
  end.

(** [PurePosixPath(rel).name]: the last component of the path, components
    that are empty or a single dot being dropped. *)
Definition posix_name (rel : string) : string :=
  List.last (List.filter (λ part, negb (String.eqb part "" || String.eqb part "."))
                         (split_on "/"%char rel)) "".

(** [PurePosixPath(rel).stem]: the name without its last suffix. *)
Definition posix_stem (rel : string) : string :=
  let name := posix_name rel in
  match last_index "."%char name with
  | Some i =>
      if ((0 <? i) && (i <? String.length name - 1))%nat then substring 0 i name
      else name
  | None => name
  end.

(** ** Notions the properties are stated with *)

(** The task references an assignment element names, when the element is
    well formed: a mapping whose [task] field is absent, a string or a
    list. *)
Definition task_refs (a : value) : option (list value) :=
  match a with
  | Map entries =>
      match dict_get entries "task" with
      | None => Some []
      | Some (Scalar (SStr s)) => Some [VStr s]
      | Some (Seq ts) => Some ts
      | Some _ => None
      end
  | _ => None
  end.

(** The structural error of an assignment element that is not well
    formed. *)
Definition structural_error (a : value) : exn :=
  if is_dict a then task_type_error else not_mapping_error.

(** [isinstance(v, list) and all(isinstance(x, str) for x in v)] *)
Definition is_str_list (v : value) : bool :=
  match v with
  | Seq items => forallb is_str items
  | _ => false
  end.

(** The number of line breaks in a text; a text written by one [print] is a
    single line when it has exactly one, the terminator. *)
Fixpoint line_breaks (s : string) : nat :=
  match s with
  | EmptyString => O
  | String c rest =>
      if Ascii.eqb c (ascii_of_nat 10) then S (line_breaks rest) else line_breaks rest
  end.

(** A required file that exists and decodes to a mapping or to null. *)
Definition decoded_mapping (f : file) : option dict :=
  if f_exists f then
    match f_read f with
    | Decoded (Scalar SNone) => Some []
    | Decoded (Map entries) => Some entries
    | _ => None
    end
  else None.

(** The [import] list of the registry: absent counts as empty. *)
Definition import_list (assembly_cfg : dict) : option (list string) :=
  match dict_get assembly_cfg "import" with
  | None => Some []
  | Some v => if is_str_list v then
                match v with Seq items => Some (omap as_str items) | _ => None end
              else None
  end.

(** ** Sample documents *)

Definition sample_imports : list string := ["webshop.yaml"; "tasks/os.yaml"].

(** [import: [webshop.yaml, tasks/os.yaml]] *)
Definition sample_registry : dict :=
  [(SStr "import", Seq [VStr "webshop.yaml"; VStr "tasks/os.yaml"])].

(** [start: {webshop-lite: 1}] *)
Definition sample_start : dict :=
  [(SStr "start", Map [(SStr "webshop-lite", VInt 1)])].

(** [start: {zeta: 1, webshop-lite: 1, alpha: 1}] *)
Definition unsorted_start : dict :=
  [(SStr "start", Map [(SStr "zeta", VInt 1); (SStr "webshop-lite", VInt 1);
                       (SStr "alpha", VInt 1)])].

(** [start: {1: null, zz: null}] *)
Definition mixed_start : dict :=
  [(SStr "start", Map [(SInt 1, VNone); (SStr "zz", VNone)])].

(** A start mapping whose one key holds a line break, as the double-quoted
    YAML key ["ghost\ntask"] decodes. *)
Definition multiline_start : dict :=
  [(SStr "start", Map [(SStr ("ghost" +:+ newline +:+ "task"), VInt 1)])].

(** [assignments: [{agent: gpt, task: [webshop, os-std]}]] *)
Definition sample_assign : dict :=
  [(SStr "assignments",
    Seq [Map [(SStr "agent", VStr "gpt"); (SStr "task", Seq [VStr "webshop"; VStr "os-std"])]])].

(** [assignments: [{task: [webshop, ghosttask-v2]}]] *)
Definition ghost_assign : dict :=
  [(SStr "assignments", Seq [Map [(SStr "task", Seq [VStr "webshop"; VStr "ghosttask-v2"])]])].

(** [assignments: [{task: ghosttask-v2}, {task: 3}]] *)
Definition malformed_assign : dict :=
  [(SStr "assignments", Seq [Map [(SStr "task", VStr "ghosttask-v2")];
                             Map [(SStr "task", VInt 3)]])].

Definition present (data : value) : file := File true (Decoded data).

(** The three files present under [/repo], with the given start document. *)
Definition sample_world (start_cfg : dict) : world :=
  World "/repo" (present (Map start_cfg)) (present (Map sample_assign))
        (present (Map sample_registry)).

Section Checker.

(** [repr(s)] for a string, and [pathlib.Path(rel).stem]. *)
Variable repr_str : string → string.
Variable path_stem : string → string.

Definition scalar_repr (k : scalar) : string :=
  match k with
  | SStr s => repr_str s
  | _ => scalar_str k
  end.

(** [repr(v)] *)
Fixpoint py_repr (v : value) : string :=
  match v with
  | Scalar k => scalar_repr k
  | Seq items => "[" +:+ join ", " (map py_repr items) +:+ "]"
  | Map entries =>
      "{" +:+ join ", " (map (λ kv : scalar * value,
                                let (k, x) := kv in scalar_repr k +:+ ": " +:+ py_repr x)
                             entries) +:+ "}"
  end.

(** [str(v)]: a string is itself, a container prints as its [repr]. *)
Definition py_str (v : value) : string :=
  match v with
  | Scalar k => scalar_str k
  | _ => py_repr v
  end.

(** Lines 52-54: the [import] field, defaulting to the empty list, checked
    to be a list of strings. *)
Definition read_imports (assembly_cfg : dict) : result (list string) :=
  let imports := dict_get_default assembly_cfg "import" (Seq []) in
  match imports with
  | Seq items =>
      if forallb is_str items then Ok (omap as_str items)
      else raise import_error
  | _ => raise import_error
  end.

(** Lines 56-59: the set of file stems of the imports. *)
Definition collect_task_names (imports : list string) : gset string :=
  foldl (λ task_names rel, task_names ∪ {[ path_stem rel ]}) ∅ imports.

(** [str(x).split("-")[0] not in task_names] *)
Definition unknown_key (task_names : gset string) (k : scalar) : bool :=
  bool_decide (base_identifier (scalar_str k) ∉ task_names).

Definition unknown_ref (task_names : gset string) (t : value) : bool :=
  bool_decide (base_identifier (py_str t) ∉ task_names).

(** Lines 62-71. *)
Definition check_start (task_names : gset string) (start_cfg : dict) : result unit :=
  let start := dict_get_default start_cfg "start" (Map []) in
  match start with
  | Map ((_ :: _) as entries) =>
      unknown_in_start ←
        py_sorted (List.filter (unknown_key task_names) (dict_keys entries));
      match unknown_in_start with
      | [] => Ok tt
      | _ :: _ =>
          raise (RuntimeError (start_unknown_prefix
                               +:+ join ", " (map scalar_str unknown_in_start)))
      end
  | _ => raise start_error
  end.

(** Lines 87-90: the inner loop, appending to [unknown_in_assign]. *)
Definition scan_tasks (task_names : gset string)
    (unknown_in_assign tasks : list value) : list value :=
  foldl (λ unknown t, if unknown_ref task_names t then unknown ++ [t] else unknown)
        unknown_in_assign tasks.

(** Lines 80-90: the body of the loop over the assignments. *)
Definition check_assignment (task_names : gset string)
    (unknown_in_assign : list value) (a : value) : result (list value) :=
  match a with
  | Map entries =>
      let tasks := dict_get_default entries "task" (Seq []) in
      let tasks := if is_str tasks then Seq [tasks] else tasks in
      match tasks with
      | Seq ts => Ok (scan_tasks task_names unknown_in_assign ts)
      | _ => raise task_type_error
      end
  | _ => raise not_mapping_error
  end.

(** Lines 79-90. *)
Fixpoint scan_assignments (task_names : gset string)
    (unknown_in_assign assignments : list value) : result (list value) :=
  match assignments with
  | [] => Ok unknown_in_assign
  | a :: rest =>
      unknown' ← check_assignment task_names unknown_in_assign a;
      scan_assignments task_names unknown' rest
  end.

(** Lines 74-96. *)
Definition check_assignments (task_names : gset string) (assign_cfg : dict) : result unit :=
  let assignments := dict_get_default assign_cfg "assignments" VNone in
  match assignments with
  | Seq ((_ :: _) as items) =>
      unknown_in_assign ← scan_assignments task_names [] items;
      match unknown_in_assign with
      | [] => Ok tt
      | _ :: _ =>
          raise (RuntimeError (assign_unknown_prefix
                               +:+ join ", " (map py_str unknown_in_assign)))
      end
  | _ => raise assignments_error
  end.

(** Lines 51-96: the cross-reference validation of the three loaded
    documents. *)
Definition validate (start_cfg assign_cfg assembly_cfg : dict) : result unit :=
  imports ← read_imports assembly_cfg;
  let task_names := collect_task_names imports in
  _ ← check_start task_names start_cfg;
  check_assignments task_names assign_cfg.

(** Lines 43-45, for one path. *)
Definition require_file (path : string) (f : file) : result unit :=
  raise_if (negb (f_exists f)) (RuntimeError ("Missing required file: " +:+ path)).

(** [main], lines 38-99: the text printed and the value returned. *)
Definition main (w : world) : result (string * Z) :=
  let start_lite := under (root w) "configs/start_task_lite.yaml" in
  let assign_lite := under (root w) "configs/assignments/lite.yaml" in
  let task_assembly := under (root w) "configs/tasks/task_assembly.yaml" in
  _ ← require_file start_lite (start_lite_file w);
  _ ← require_file assign_lite (assign_lite_file w);
  _ ← require_file task_assembly (task_assembly_file w);
  start_cfg ← load_yaml start_lite (f_read (start_lite_file w));
  assign_cfg ← load_yaml assign_lite (f_read (assign_lite_file w));
  assembly_cfg ← load_yaml task_assembly (f_read (task_assembly_file w));
  _ ← validate start_cfg assign_cfg assembly_cfg;
  Ok ("OK: lite configs look valid" +:+ newline, 0).

(** Lines 102-107: [SystemExit(main())] passes through the handler, every
    other exception is reported on standard error with status 1. *)
Definition run (w : world) : outcome :=
  match main w with
  | Ok (out, status) => Outcome status out ""
  | Err e => Outcome 1 "" ("ERROR: " +:+ exn_str e +:+ newline)
  end.

(** The violations of an assignment list: the unresolvable references of
    each element, in encounter order, repetitions kept. *)
Definition violations (task_names : gset string) (items : list value) : list value :=
  flat_map (λ a, List.filter (unknown_ref task_names) (default [] (task_refs a))) items.

(** Both referencing documents have the required shape and every
    reference in them resolves. *)
Definition references_resolve (task_names : gset string) (start_cfg assign_cfg : dict) : bool :=
  match dict_get start_cfg "start", dict_get assign_cfg "assignments" with
  | Some (Map ((_ :: _) as entries)), Some (Seq ((_ :: _) as items)) =>
      forallb (λ k, negb (unknown_key task_names k)) (dict_keys entries)
      && forallb (λ a, match task_refs a with
                       | Some ts => forallb (λ t, negb (unknown_ref task_names t)) ts
                       | None => false
                       end) items
  | _, _ => false
  end.

(** All checks pass: the three files exist and decode to mappings, the
    import list is well typed, and the references resolve. *)
Definition checks_pass (w : world) : bool :=
  match decoded_mapping (start_lite_file w), decoded_mapping (assign_lite_file w),
        decoded_mapping (task_assembly_file w) with
  | Some start_cfg, Some assign_cfg, Some assembly_cfg =>
      match import_list assembly_cfg with
      | Some imports =>
          references_resolve (collect_task_names imports) start_cfg assign_cfg
      | None => false
      end
  | _, _, _ => false
  end.
(** A reference text resolves against the import list when its base
    identifier is the file stem of one of the entries. *)
Definition resolves (imports : list string) (ref : string) : Prop :=
  ∃ rel, rel ∈ imports ∧ base_identifier ref = path_stem rel.


(** * Properties *)


(** ** Splitting and the base identifier *)

Lemma split_on_nonempty sep s : split_on sep s ≠ [].
Proof.
  destruct s as [|c rest]; simpl; [discriminate|].
  destruct (Ascii.eqb c sep); [discriminate|].
  destruct (split_on sep rest); discriminate.
Qed.

Lemma split_on_absent sep s :
  contains_char sep s = false → split_on sep s = [s].
Proof.
  induction s as [|c rest IH]; simpl; [done|].
  intros [Hc Hrest]%orb_false_iff.
  rewrite Hc, (IH Hrest). done.
Qed.

Lemma split_on_first sep x rest :
  contains_char sep x = false →
  split_on sep (x +:+ String sep rest) = x :: split_on sep rest.
Proof.
  induction x as [|c x IH]; simpl.
  - intros _. by rewrite Ascii.eqb_refl.
  - intros [Hc Hx]%orb_false_iff. rewrite Hc, (IH Hx). done.
Qed.

(** C4. The base identifier is the text before the first hyphen: for a
    reference [x-rest] whose [x] holds no hyphen it is [x], whatever further
    hyphens [rest] holds, and for a reference without a hyphen it is the
    reference itself. *)
Theorem base_identifier_before_first_hyphen (x rest : string) :
  contains_char hyphen x = false →
  base_identifier (x +:+ String hyphen rest) = x ∧ base_identifier x = x.
Proof.
  intros Hx. unfold base_identifier.
  by rewrite (split_on_first _ _ _ Hx), (split_on_absent _ _ Hx).
Qed.

Lemma base_identifier_before_first_hyphen_witness :
  contains_char hyphen "webshop" = false ∧
  base_identifier ("webshop" +:+ String hyphen "easy-v2") = "webshop" ∧
  base_identifier "webshop" = "webshop".
Proof.
  split; [reflexivity|].
  apply (base_identifier_before_first_hyphen "webshop" "easy-v2"). reflexivity.
Defined.

(** ** Ordering and [sorted] *)

Lemma ascii_compare_refl a : Ascii.compare a a = Eq.
Proof. unfold Ascii.compare. apply N.compare_refl. Qed.

Lemma ascii_compare_lt_trans a b c :
  Ascii.compare a b = Lt → Ascii.compare b c = Lt → Ascii.compare a c = Lt.
Proof. unfold Ascii.compare. rewrite !N.compare_lt_iff. lia. Qed.

Lemma string_compare_lt_trans a : ∀ b c,
  String.compare a b = Lt → String.compare b c = Lt → String.compare a c = Lt.
Proof.
  induction a as [|x a IH]; intros [|y b] [|z c]; simpl; try done.
  destruct (Ascii.compare x y) eqn:Hxy; try done;
    destruct (Ascii.compare y z) eqn:Hyz; try done.
  - apply Ascii.compare_eq_iff in Hxy as ->. apply Ascii.compare_eq_iff in Hyz as ->.
    rewrite ascii_compare_refl. apply IH.
  - apply Ascii.compare_eq_iff in Hxy as ->. by rewrite Hyz.
  - apply Ascii.compare_eq_iff in Hyz as <-. by rewrite Hxy.
  - by rewrite (ascii_compare_lt_trans _ _ _ Hxy Hyz).
Qed.

Lemma string_compare_refl a : String.compare a a = Eq.
Proof. induction a as [|x a IH]; simpl; [done|]. by rewrite ascii_compare_refl. Qed.

Lemma string_leb_trans a b c :
  String.leb a b = true → String.leb b c = true → String.leb a c = true.
Proof.
  unfold String.leb.
  destruct (String.compare a b) eqn:Hab; try done;
    destruct (String.compare b c) eqn:Hbc; try done; intros _ _.
  - apply String.compare_eq_iff in Hab as ->. by rewrite Hbc.
  - apply String.compare_eq_iff in Hab as ->. by rewrite Hbc.
  - apply String.compare_eq_iff in Hbc as <-. by rewrite Hab.
  - by rewrite (string_compare_lt_trans _ _ _ Hab Hbc).
Qed.

Lemma string_ltb_leb a b : String.ltb a b = true → String.leb a b = true.
Proof. unfold String.ltb, String.leb. by destruct (String.compare a b). Qed.

Lemma string_not_ltb_leb a b : String.ltb a b = false → String.leb b a = true.
Proof.
  unfold String.ltb, String.leb. rewrite (String.compare_antisym a b).
  by destruct (String.compare b a).
Qed.

#[global] Instance scalar_le_trans : Transitive scalar_le.
Proof.
  intros [|p|x|a] [|q|y|b] [|r|z|c]; simpl; try done;
    try (by apply string_leb_trans); try lia;
    repeat match goal with v : bool |- _ => destruct v end; simpl; lia.
Qed.

(** An orderable pair compares without error, and the answer places the two
    in [scalar_le] order. *)
Lemma py_lt_orderable x y :
  orderable x y = true →
  ∃ b, py_lt x y = Ok b ∧ if b then scalar_le x y else scalar_le y x.
Proof.
  destruct x as [|p|x|a], y as [|q|y|b]; simpl; intros H; try done.
  all: eexists; split; [reflexivity|].
  1-4: match goal with |- if ?u <? ?v then _ else _ => destruct (Z.ltb_spec u v); lia end.
  destruct (String.ltb a b) eqn:Hlt;
    [by apply string_ltb_leb | by apply string_not_ltb_leb].
Qed.

(** Inserting into a sorted prefix of elements orderable with [x] succeeds,
    keeps the elements and the order. *)
Lemma insert_sorted_ok x prefix :
  Forall (λ y, orderable x y = true) prefix →
  Sorted scalar_le prefix →
  ∃ l, insert_sorted x prefix = Ok l ∧ l ≡ₚ x :: prefix ∧ Sorted scalar_le l
       ∧ ∀ a, scalar_le a x → HdRel scalar_le a prefix → HdRel scalar_le a l.
Proof.
  induction prefix as [|y rest IH]; intros Hord Hsorted.
  - exists [x]. repeat split; auto.
  - apply Forall_cons in Hord as [Hxy Hrest].
    apply Sorted_inv in Hsorted as [Hsorted Hhd].
    destruct (py_lt_orderable x y Hxy) as (b & Hlt & Hle).
    simpl. rewrite Hlt. simpl. destruct b.
    + exists (x :: y :: rest). repeat split; auto.
    + destruct (IH Hrest Hsorted) as (l & -> & Hperm & Hl & Hhead). simpl.
      exists (y :: l). repeat split.
      * rewrite Hperm. apply perm_swap.
      * constructor; auto.
      * intros a _ Ha. apply HdRel_inv in Ha. by constructor.
Qed.

Lemma sort_into_ok l : ∀ prefix,
  (∀ x y, x ∈ prefix ++ l → y ∈ prefix ++ l → orderable x y = true) →
  Sorted scalar_le prefix →
  ∃ out, sort_into prefix l = Ok out ∧ out ≡ₚ prefix ++ l ∧ Sorted scalar_le out.
Proof.
  induction l as [|x rest IH]; intros prefix Hord Hsorted; simpl.
  - exists prefix. by rewrite app_nil_r.
  - destruct (insert_sorted_ok x prefix) as (l' & -> & Hperm & Hl' & _); auto.
    { apply Forall_forall. intros y Hy.
      apply Hord; apply elem_of_app; [right; left | by left]. }
    assert (Hsame : l' ++ rest ≡ₚ prefix ++ x :: rest).
    { by rewrite Hperm, <- Permutation_middle. }
    simpl. destruct (IH l') as (out & -> & Hout & Hs); auto.
    { intros a b Ha Hb. rewrite Hsame in Ha, Hb. by apply Hord. }
    exists out. repeat split; auto. by rewrite Hout.
Qed.

(** [sorted] on mutually orderable scalars: the same elements, ascending. *)
Lemma py_sorted_ok l :
  (∀ x y, x ∈ l → y ∈ l → orderable x y = true) →
  ∃ out, py_sorted l = Ok out ∧ out ≡ₚ l ∧ StronglySorted scalar_le out.
Proof.
  intros Hord. destruct (sort_into_ok l []) as (out & Hout & Hperm & Hs); auto.
  exists out. repeat split; auto. apply Sorted_StronglySorted; auto.
  intros x y z. apply scalar_le_trans.
Qed.

(** ** The cross-reference validation *)

(** The Known Task Set holds exactly the stems of the imports. *)
Lemma elem_of_collect_task_names imports x :
  x ∈ collect_task_names imports ↔ ∃ rel, rel ∈ imports ∧ x = path_stem rel.
Proof.
  unfold collect_task_names.
  assert (Hgen : ∀ acc : gset string,
    x ∈ foldl (λ task_names rel, task_names ∪ {[ path_stem rel ]}) acc imports
    ↔ x ∈ acc ∨ ∃ rel, rel ∈ imports ∧ x = path_stem rel).
  { induction imports as [|rel rest IH]; intros acc; simpl.
    - split; [by left|]. intros [|(rel & Hin & _)]; [done|]. by apply elem_of_nil in Hin.
    - rewrite IH, elem_of_union, elem_of_singleton. split.
      + intros [[?| ->]|(r & Hr & ->)]; [by left| |].
        * right. exists rel. split; [left|done].
        * right. exists r. split; [by right|done].
      + intros [|(r & [->|Hr]%elem_of_cons & ->)]; [by left; left| |].
        * left. by right.
        * right. by exists r. }
  rewrite Hgen. split; [|by right]. intros [Hin|]; [|done]. by apply elem_of_empty in Hin.
Qed.

Lemma validate_after_imports s a t imports :
  read_imports t = Ok imports →
  validate s a t
  = (check_start (collect_task_names imports) s
       ≫= λ _, check_assignments (collect_task_names imports) a).
Proof. intros H. unfold validate. by rewrite H. Qed.

Lemma scan_tasks_filter names ts : ∀ unknown,
  scan_tasks names unknown ts = unknown ++ List.filter (unknown_ref names) ts.
Proof.
  unfold scan_tasks. induction ts as [|t ts IH]; intros unknown; simpl.
  - by rewrite app_nil_r.
  - rewrite IH. destruct (unknown_ref names t); [|done]. by rewrite <- app_assoc.
Qed.

Lemma check_assignment_well_formed names unknown a ts :
  task_refs a = Some ts →
  check_assignment names unknown a = Ok (unknown ++ List.filter (unknown_ref names) ts).
Proof.
  destruct a as [k|items|entries]; simpl; try done.
  unfold dict_get_default.
  destruct (dict_get entries "task") as [[[| | |r]|items|d]|]; simpl; try done;
    intros [= <-]; by rewrite <- scan_tasks_filter.
Qed.

Lemma check_assignment_malformed names unknown a :
  task_refs a = None →
  check_assignment names unknown a = Err (structural_error a).
Proof.
  destruct a as [k|items|entries]; simpl; try done.
  unfold dict_get_default.
  by destruct (dict_get entries "task") as [[[| | |r]|items|d]|].
Qed.

Lemma scan_assignments_well_formed names items : ∀ unknown,
  Forall (λ a, is_Some (task_refs a)) items →
  scan_assignments names unknown items = Ok (unknown ++ violations names items).
Proof.
  induction items as [|a rest IH]; intros unknown Hall; simpl.
  - by rewrite app_nil_r.
  - apply Forall_cons in Hall as [[ts Hts] Hrest].
    rewrite (check_assignment_well_formed _ _ _ _ Hts). simpl.
    rewrite (IH _ Hrest), Hts. simpl. by rewrite <- app_assoc.
Qed.

Lemma scan_assignments_malformed names items : ∀ unknown,
  Exists (λ a, task_refs a = None) items →
  ∃ bad, bad ∈ items ∧ task_refs bad = None
         ∧ scan_assignments names unknown items = Err (structural_error bad).
Proof.
  induction items as [|a rest IH]; intros unknown Hex.
  - by apply Exists_nil in Hex.
  - destruct (task_refs a) as [ts|] eqn:Hts.
    + apply Exists_cons in Hex as [Hbad|Hex]; [congruence|].
      destruct (IH (unknown ++ List.filter (unknown_ref names) ts) Hex)
        as (bad & Hin & Hbad & Hscan).
      exists bad. split; [by right|]. split; [done|].
      simpl. by rewrite (check_assignment_well_formed _ _ _ _ Hts).
    + exists a. split; [left|]. split; [done|].
      simpl. by rewrite (check_assignment_malformed _ _ _ Hts).
Qed.

(** C3. When the import and start stages pass and every assignment
    element is a mapping whose [task] field is absent, a string or a list,
    the references whose base identifier is unknown are collected as they
    were written, in encounter order across the elements and without
    deduplication; if there is at least one, validation fails with the
    unknown-reference message listing them comma-joined in that order. *)
Theorem unknown_assignment_refs_reported s a t imports items :
  read_imports t = Ok imports →
  check_start (collect_task_names imports) s = Ok tt →
  dict_get a "assignments" = Some (Seq items) →
  Forall (λ el, is_Some (task_refs el)) items →
  violations (collect_task_names imports) items ≠ [] →
  scan_assignments (collect_task_names imports) [] items
    = Ok (violations (collect_task_names imports) items)
  ∧ validate s a t
    = Err (RuntimeError
             (assign_unknown_prefix
              +:+ join ", " (map py_str (violations (collect_task_names imports) items)))).
Proof.
  intros Himp Hstart Hget Hall Hne.
  assert (Hscan := scan_assignments_well_formed (collect_task_names imports) items [] Hall).
  rewrite app_nil_l in Hscan. split; [done|].
  rewrite (validate_after_imports _ _ _ _ Himp), Hstart.
  unfold check_assignments, dict_get_default. rewrite Hget.
  destruct items as [|el rest]; [done|].
  revert Hscan Hne. generalize (violations (collect_task_names imports) (el :: rest)).
  intros vs Hscan Hne. cbn [default from_option id mbind result_bind]. rewrite Hscan.
  by destruct vs.
Qed.

Lemma scan_assignments_cons names unknown a rest :
  scan_assignments names unknown (a :: rest)
  = check_assignment names unknown a ≫= λ unknown', scan_assignments names unknown' rest.
Proof. reflexivity. Qed.

Lemma scan_assignments_app names pre post : ∀ unknown,
  scan_assignments names unknown (pre ++ post)
  = scan_assignments names unknown pre ≫= λ unknown', scan_assignments names unknown' post.
Proof.
  induction pre as [|a pre IH]; intros unknown; [done|].
  rewrite <- app_comm_cons, !scan_assignments_cons.
  destruct (check_assignment names unknown a) as [unknown'|e]; [apply IH | done].
Qed.

(** C8. An assignment element that is a mapping without a [task] field is
    validated as if the field held the empty list: the loop body records
    nothing and raises nothing, so the scan of an assignment list gives the
    same result with the element as without it. *)
Theorem absent_task_field_passes names unknown entries :
  dict_get entries "task" = None →
  check_assignment names unknown (Map entries) = Ok unknown
  ∧ check_assignment names unknown (Map entries)
    = check_assignment names unknown (Map ((SStr "task", Seq []) :: entries))
  ∧ ∀ unknown' pre post,
      scan_assignments names unknown' (pre ++ Map entries :: post)
      = scan_assignments names unknown' (pre ++ post).
Proof.
  intros Hget.
  assert (Hbody : ∀ u, check_assignment names u (Map entries) = Ok u).
  { intros u. unfold check_assignment, dict_get_default. by rewrite Hget. }
  split; [done|]. split; [by rewrite Hbody|].
  intros unknown' pre post. rewrite !scan_assignments_app.
  destruct (scan_assignments names unknown' pre) as [u|e]; [|done].
  cbn [mbind result_bind]. by rewrite scan_assignments_cons, Hbody.
Qed.

(** C6. For an assignment element that is a mapping with a [task] field: a
    string is validated as the one-element list holding it and a list is
    validated as it is; any other value makes the loop body raise the error
    "assignment.task must be a string or list", and when the earlier stages
    pass and the elements before it are well formed, validation as a whole
    fails with that error. *)
Theorem task_field_forms names unknown entries v :
  dict_get entries "task" = Some v →
  (∀ r, v = VStr r →
     check_assignment names unknown (Map entries)
     = Ok (scan_tasks names unknown [VStr r]))
  ∧ (∀ ts, v = Seq ts →
     check_assignment names unknown (Map entries) = Ok (scan_tasks names unknown ts))
  ∧ (is_str v = false → is_list v = false →
     check_assignment names unknown (Map entries)
     = Err (RuntimeError "assignment.task must be a string or list")
     ∧ ∀ s a t imports pre post,
         read_imports t = Ok imports →
         check_start (collect_task_names imports) s = Ok tt →
         dict_get a "assignments" = Some (Seq (pre ++ Map entries :: post)) →
         Forall (λ el, is_Some (task_refs el)) pre →
         validate s a t = Err (RuntimeError "assignment.task must be a string or list")).
Proof.
  intros Hget.
  assert (Hbody : ∀ names' unknown',
            check_assignment names' unknown' (Map entries)
            = if is_str v then Ok (scan_tasks names' unknown' [v])
              else match v with
                   | Seq ts => Ok (scan_tasks names' unknown' ts)
                   | _ => raise task_type_error
                   end).
  { intros names' unknown'. unfold check_assignment, dict_get_default. rewrite Hget.
    cbn [default from_option id]. by destruct (is_str v). }
  split; [|split].
  - intros r ->. by rewrite Hbody.
  - intros ts ->. by rewrite Hbody.
  - intros Hs Hl.
    assert (Herr : ∀ names' unknown',
              check_assignment names' unknown' (Map entries) = Err task_type_error).
    { intros names' unknown'. rewrite Hbody, Hs. by destruct v. }
    split; [apply Herr|].
    intros s a t imports pre post Himp Hstart Hassign Hpre.
    rewrite (validate_after_imports _ _ _ _ Himp), Hstart.
    unfold check_assignments, dict_get_default. rewrite Hassign.
    assert (Hscan : scan_assignments (collect_task_names imports) []
                      (pre ++ Map entries :: post) = Err task_type_error).
    { rewrite scan_assignments_app, (scan_assignments_well_formed _ _ _ Hpre).
      cbn [mbind result_bind]. by rewrite scan_assignments_cons, Herr. }
    destruct (pre ++ Map entries :: post) as [|el rest] eqn:Hitems.
    { by destruct pre. }
    cbn [default from_option id mbind result_bind]. by rewrite Hscan.
Qed.

Lemma structural_error_not_unknown a listing :
  structural_error a ≠ RuntimeError (assign_unknown_prefix +:+ listing).
Proof. unfold structural_error. by destruct (is_dict a). Qed.

(** C9. When the import and start stages pass and some element of the
    assignment list is malformed (not a mapping, or with a [task] field that
    is neither a string nor a list), validation fails with the structural
    error of a malformed element, whatever unresolvable references the other
    elements hold: the unknown-reference error is not reported. *)
Theorem structural_error_preempts_violations s a t imports items :
  read_imports t = Ok imports →
  check_start (collect_task_names imports) s = Ok tt →
  dict_get a "assignments" = Some (Seq items) →
  Exists (λ el, task_refs el = None) items →
  (∃ bad, bad ∈ items ∧ task_refs bad = None
          ∧ validate s a t = Err (structural_error bad))
  ∧ (validate s a t = Err (RuntimeError "Each assignment must be a mapping")
     ∨ validate s a t = Err (RuntimeError "assignment.task must be a string or list"))
  ∧ ∀ listing, validate s a t ≠ Err (RuntimeError (assign_unknown_prefix +:+ listing)).
Proof.
  intros Himp Hstart Hget Hex.
  destruct (scan_assignments_malformed (collect_task_names imports) items [] Hex)
    as (bad & Hin & Hbad & Hscan).
  assert (Hval : validate s a t = Err (structural_error bad)).
  { rewrite (validate_after_imports _ _ _ _ Himp), Hstart.
    unfold check_assignments, dict_get_default. rewrite Hget.
    destruct items as [|el rest]; [by apply elem_of_nil in Hin|].
    cbn [default from_option id mbind result_bind]. by rewrite Hscan. }
  split; [by exists bad|]. rewrite Hval. split.
  - unfold structural_error. destruct (is_dict bad); [by right | by left].
  - intros listing [= H]. by apply structural_error_not_unknown in H.
Qed.

(** C1, as the code has it. When the import field is well typed and the
    start mapping has at least one key whose base identifier is not in the
    Known Task Set, and those keys can be ordered among themselves (all
    strings, or all numbers), validation fails with the unknown-reference
    message of the start document listing exactly those keys, comma-joined,
    in ascending sorted order. *)
Theorem unknown_start_keys_reported_sorted s a t imports entries :
  read_imports t = Ok imports →
  dict_get s "start" = Some (Map entries) →
  List.filter (unknown_key (collect_task_names imports)) (dict_keys entries) ≠ [] →
  (∀ x y,
     x ∈ List.filter (unknown_key (collect_task_names imports)) (dict_keys entries) →
     y ∈ List.filter (unknown_key (collect_task_names imports)) (dict_keys entries) →
     orderable x y = true) →
  ∃ listed,
    listed ≡ₚ List.filter (unknown_key (collect_task_names imports)) (dict_keys entries)
    ∧ StronglySorted scalar_le listed
    ∧ validate s a t
      = Err (RuntimeError (start_unknown_prefix +:+ join ", " (map scalar_str listed))).
Proof.
  intros Himp Hget Hne Hord.
  destruct (py_sorted_ok _ Hord) as (listed & Hsorted & Hperm & Hstrong).
  exists listed. split; [done|]. split; [done|].
  rewrite (validate_after_imports _ _ _ _ Himp).
  unfold check_start, dict_get_default. rewrite Hget.
  destruct entries as [|entry more]; [done|].
  cbn [default from_option id]. rewrite Hsorted.
  destruct listed as [|k listed].
  - apply Permutation_nil in Hperm. by rewrite Hperm in Hne.
  - done.
Qed.

(** C2, as the code has it. An [import] field that is present but is not a
    list of strings makes validation fail with the error naming the field;
    an absent [import] field is read as the empty list, so validation goes
    on with an empty Known Task Set. *)
Theorem import_field_checked s a t :
  (∀ v, dict_get t "import" = Some v → is_str_list v = false →
        validate s a t
        = Err (RuntimeError "configs/tasks/task_assembly.yaml must have a list field: import"))
  ∧ (dict_get t "import" = None →
     read_imports t = Ok []
     ∧ collect_task_names [] = ∅
     ∧ validate s a t = (check_start ∅ s ≫= λ _, check_assignments ∅ a)).
Proof.
  split.
  - intros v Hget Hv. unfold validate, read_imports, dict_get_default.
    rewrite Hget. cbn [default from_option id].
    destruct v as [k|items|d]; try done. simpl in Hv. by rewrite Hv.
  - intros Hget.
    assert (Himp : read_imports t = Ok []).
    { unfold read_imports, dict_get_default. by rewrite Hget. }
    split; [done|]. split; [done|].
    by rewrite (validate_after_imports _ _ _ _ Himp).
Qed.


(** ** The loader *)

(** C5, as the code has it. For a file that decodes, [load_yaml] returns the
    empty mapping exactly when the document is null or is itself an empty
    mapping, returns the decoded mapping when the top level is a mapping,
    and otherwise raises the error that reports the path and the decoded
    type. *)
Theorem load_yaml_decoded path data :
  (load_yaml path (Decoded data) = Ok [] ↔ data = VNone ∨ data = Map [])
  ∧ (∀ entries, data = Map entries → load_yaml path (Decoded data) = Ok entries)
  ∧ (is_none data = false → is_dict data = false →
     load_yaml path (Decoded data)
     = Err (RuntimeError ("Expected mapping at top-level in " +:+ path
                          +:+ ", got " +:+ type_str data))).
Proof.
  split; [|split].
  - split.
    + destruct data as [[| | |r]|items|[|e d]]; simpl; try done; auto.
    + by intros [-> | ->].
  - by intros entries ->.
  - destruct data as [[| | |r]|items|d]; simpl; done.
Qed.

(** ** The entry point *)

Lemma bind_ok_inv {A B} (m : result A) (f : A → result B) b :
  m ≫= f = Ok b → ∃ a, m = Ok a ∧ f a = Ok b.
Proof. destruct m as [a|e]; [|done]. intros H. by exists a. Qed.

Lemma insert_sorted_nonempty x prefix l : insert_sorted x prefix = Ok l → l ≠ [].
Proof.
  destruct prefix as [|y rest]; simpl; [by intros [= <-]|].
  destruct (py_lt x y) as [[|]|e]; simpl; [by intros [= <-]| |done].
  destruct (insert_sorted x rest); simpl; [by intros [= <-]|done].
Qed.

Lemma sort_into_nil l : ∀ prefix, sort_into prefix l = Ok [] → prefix = [] ∧ l = [].
Proof.
  induction l as [|x rest IH]; intros prefix; simpl; [by intros [= ->]|].
  intros (prefix' & Hins & Hrest)%bind_ok_inv.
  apply IH in Hrest as [-> _]. by apply insert_sorted_nonempty in Hins.
Qed.

Lemma filter_nil_forallb {A} (f : A → bool) l :
  List.filter f l = [] ↔ forallb (λ x, negb (f x)) l = true.
Proof.
  induction l as [|x l IH]; simpl; [done|].
  destruct (f x); simpl; [split; done | done].
Qed.

Lemma decoded_mapping_load path f d :
  decoded_mapping f = Some d ↔ f_exists f = true ∧ load_yaml path (f_read f) = Ok d.
Proof.
  unfold decoded_mapping. destruct (f_exists f); [|split; [done | by intros [? _]]].
  destruct (f_read f) as [cause|[[| | |r]|items|entries]]; simpl;
    (split; [by intros [= <-] | by intros [_ [= <-]]]).
Qed.

Lemma require_file_ok path f : require_file path f = Ok tt ↔ f_exists f = true.
Proof. unfold require_file. by destruct (f_exists f). Qed.

Lemma read_imports_import_list t :
  read_imports t = match import_list t with
                   | Some imports => Ok imports
                   | None => Err import_error
                   end.
Proof.
  unfold read_imports, import_list, dict_get_default.
  destruct (dict_get t "import") as [[k|items|d]|]; simpl; try done.
  by destruct (forallb is_str items).
Qed.

Lemma check_start_ok names s :
  check_start names s = Ok tt ↔
  ∃ entry more, dict_get s "start" = Some (Map (entry :: more))
    ∧ forallb (λ k, negb (unknown_key names k)) (dict_keys (entry :: more)) = true.
Proof.
  unfold check_start, dict_get_default.
  destruct (dict_get s "start") as [[k|items|[|entry more]]|];
    cbn [default from_option id];
    try (split; [done | by intros (? & ? & ? & ?)]).
  split.
  - intros (listed & Hsorted & Hrest)%bind_ok_inv.
    destruct listed; [|done]. apply sort_into_nil in Hsorted as [_ Hnil].
    exists entry, more. split; [done|]. by apply filter_nil_forallb.
  - intros (? & ? & [= <- <-] & Hnil).
    apply filter_nil_forallb in Hnil. by rewrite Hnil.
Qed.

Lemma violations_nil_forallb names items :
  Forall (λ a, is_Some (task_refs a)) items →
  violations names items = [] →
  forallb (λ a, match task_refs a with
                | Some ts => forallb (λ t, negb (unknown_ref names t)) ts
                | None => false
                end) items = true.
Proof.
  induction 1 as [|a items [ts Hts] _ IH]; simpl; [done|].
  rewrite Hts. simpl. intros [Ha Hrest]%app_eq_nil.
  apply filter_nil_forallb in Ha. rewrite Ha. by apply IH.
Qed.

Lemma forallb_violations_nil names items :
  forallb (λ a, match task_refs a with
                | Some ts => forallb (λ t, negb (unknown_ref names t)) ts
                | None => false
                end) items = true →
  Forall (λ a, is_Some (task_refs a)) items ∧ violations names items = [].
Proof.
  induction items as [|a items IH]; simpl; [done|].
  destruct (task_refs a) as [ts|] eqn:Hts; [|done].
  intros [Ha Hrest]%andb_true_iff. destruct (IH Hrest) as [Hall Hnil].
  split; [constructor; [by rewrite Hts | done]|].
  simpl. rewrite Hnil, app_nil_r. by apply filter_nil_forallb.
Qed.

Lemma scan_assignments_ok_inv names items : ∀ unknown out,
  scan_assignments names unknown items = Ok out →
  Forall (λ a, is_Some (task_refs a)) items.
Proof.
  induction items as [|a items IH]; intros unknown out; [done|].
  rewrite scan_assignments_cons. intros (unknown' & Hbody & Hrest)%bind_ok_inv.
  constructor; [|by eapply IH].
  destruct (task_refs a) eqn:Ha; [done|].
  by rewrite (check_assignment_malformed _ _ _ Ha) in Hbody.
Qed.

Lemma check_assignments_ok names a :
  check_assignments names a = Ok tt ↔
  ∃ el rest, dict_get a "assignments" = Some (Seq (el :: rest))
    ∧ forallb (λ a, match task_refs a with
                    | Some ts => forallb (λ t, negb (unknown_ref names t)) ts
                    | None => false
                    end) (el :: rest) = true.
Proof.
  unfold check_assignments, dict_get_default.
  destruct (dict_get a "assignments") as [[k|[|el rest]|d]|];
    cbn [default from_option id];
    try (split; [done | by intros (? & ? & ? & ?)]).
  split.
  - intros (out & Hscan & Hout)%bind_ok_inv. destruct out; [|done].
    exists el, rest. split; [done|].
    assert (Hall := scan_assignments_ok_inv _ _ _ _ Hscan).
    rewrite (scan_assignments_well_formed _ _ _ Hall) in Hscan.
    apply violations_nil_forallb; [done|]. by injection Hscan.
  - intros (? & ? & [= <- <-] & Hall).
    apply forallb_violations_nil in Hall as [Hall Hnil].
    by rewrite (scan_assignments_well_formed _ _ _ Hall), Hnil.
Qed.

Lemma references_resolve_checks names s a :
  references_resolve names s a = true ↔
  check_start names s = Ok tt ∧ check_assignments names a = Ok tt.
Proof.
  rewrite check_start_ok, check_assignments_ok. unfold references_resolve. split.
  - destruct (dict_get s "start") as [[k|items|[|entry more]]|]; try done.
    destruct (dict_get a "assignments") as [[k|[|el rest]|d]|]; try done.
    intros [Hs Ha]%andb_true_iff. split; eauto.
  - intros [(entry & more & -> & Hs) (el & rest & -> & Ha)].
    by rewrite Hs, Ha.
Qed.

Lemma validate_ok s a t :
  validate s a t = Ok tt ↔
  ∃ imports, import_list t = Some imports
             ∧ references_resolve (collect_task_names imports) s a = true.
Proof.
  unfold validate. rewrite read_imports_import_list.
  destruct (import_list t) as [imports|]; [|split; [done | by intros (? & ? & ?)]].
  cbn [mbind result_bind]. split.
  - intros ([] & Hstart & Hassign)%bind_ok_inv. exists imports. split; [done|].
    by apply references_resolve_checks.
  - intros (? & [= <-] & [Hstart Hassign]%references_resolve_checks).
    by rewrite Hstart.
Qed.

Lemma main_ok_iff w r :
  main w = Ok r ↔
  checks_pass w = true ∧ r = ("OK: lite configs look valid" +:+ newline, 0).
Proof.
  unfold main, checks_pass. split.
  - intros ([] & H1%require_file_ok & H)%bind_ok_inv.
    apply bind_ok_inv in H as ([] & H2%require_file_ok & H).
    apply bind_ok_inv in H as ([] & H3%require_file_ok & H).
    apply bind_ok_inv in H as (s & Hs & H).
    apply bind_ok_inv in H as (a & Ha & H).
    apply bind_ok_inv in H as (t & Ht & H).
    apply bind_ok_inv in H as ([] & (imports & Himp & Hres)%validate_ok & [= <-]).
    rewrite (proj2 (decoded_mapping_load _ _ _) (conj H1 Hs)),
      (proj2 (decoded_mapping_load _ _ _) (conj H2 Ha)),
      (proj2 (decoded_mapping_load _ _ _) (conj H3 Ht)), Himp.
    done.
  - intros [Hpass ->].
    destruct (decoded_mapping (start_lite_file w)) as [s|] eqn:Hs; [|done].
    destruct (decoded_mapping (assign_lite_file w)) as [a|] eqn:Ha; [|done].
    destruct (decoded_mapping (task_assembly_file w)) as [t|] eqn:Ht; [|done].
    destruct (import_list t) as [imports|] eqn:Himp; [|done].
    apply (decoded_mapping_load (under (root w) "configs/start_task_lite.yaml")) in Hs as [H1 Hs].
    apply (decoded_mapping_load (under (root w) "configs/assignments/lite.yaml")) in Ha as [H2 Ha].
    apply (decoded_mapping_load (under (root w) "configs/tasks/task_assembly.yaml")) in Ht as [H3 Ht].
    rewrite (proj2 (require_file_ok _ _) H1), (proj2 (require_file_ok _ _) H2),
      (proj2 (require_file_ok _ _) H3).
    cbn [mbind result_bind]. rewrite Hs, Ha, Ht. cbn [mbind result_bind].
    assert (Hval : validate s a t = Ok tt) by (apply validate_ok; eauto).
    by rewrite Hval.
Qed.

Lemma line_breaks_app a b :
  line_breaks (a +:+ b) = (line_breaks a + line_breaks b)%nat.
Proof.
  induction a as [|c a IH]; simpl; [done|].
  destruct (Ascii.eqb c (ascii_of_nat 10)); simpl; by rewrite IH.
Qed.

(** C7, as the code has it. When all checks pass the run exits with status 0
    and writes exactly the line "OK: lite configs look valid" to standard
    output and nothing to standard error. When a check fails the run exits
    with status 1, writes nothing to standard output, and writes
    "ERROR: <message>" and a line terminator to standard error in one
    [print]: that text is a single line exactly when the message holds no
    line break. *)
Theorem run_outcome w :
  (checks_pass w = true →
   run w = Outcome 0 ("OK: lite configs look valid" +:+ newline) ""
   ∧ line_breaks (stdout (run w)) = 1%nat)
  ∧ (checks_pass w = false →
     ∃ e, main w = Err e
          ∧ run w = Outcome 1 "" ("ERROR: " +:+ exn_str e +:+ newline)
          ∧ line_breaks (stderr (run w)) = S (line_breaks (exn_str e))).
Proof.
  split.
  - intros Hpass.
    assert (Hmain : main w = Ok ("OK: lite configs look valid" +:+ newline, 0))
      by by apply main_ok_iff.
    unfold run. by rewrite Hmain.
  - intros Hfail. unfold run. destruct (main w) as [r|e] eqn:Hmain.
    + apply main_ok_iff in Hmain as [Hpass _]. congruence.
    + exists e. split; [done|]. split; [done|].
      cbn [stderr]. rewrite !line_breaks_app. simpl. lia.
Qed.

(** ** The order of the checks *)

Lemma forallb_elem_of {A} (f : A → bool) l :
  forallb f l = true ↔ ∀ x, x ∈ l → f x = true.
Proof.
  induction l as [|y l IH]; simpl.
  - split; [|done]. intros _ x Hx. by apply elem_of_nil in Hx.
  - rewrite andb_true_iff, IH. split.
    + intros [Hy Hl] x [->|Hx]%elem_of_cons; auto.
    + intros H. split; [apply H; left | intros x Hx; apply H; by right].
Qed.

Lemma unknown_key_resolves imports k :
  unknown_key (collect_task_names imports) k = false ↔ resolves imports (scalar_str k).
Proof.
  unfold unknown_key, resolves.
  rewrite bool_decide_eq_false, <- elem_of_collect_task_names.
  split; [apply dec_stable | by intros H Hn].
Qed.

Lemma unknown_ref_resolves imports r :
  unknown_ref (collect_task_names imports) r = false ↔ resolves imports (py_str r).
Proof.
  unfold unknown_ref, resolves.
  rewrite bool_decide_eq_false, <- elem_of_collect_task_names.
  split; [apply dec_stable | by intros H Hn].
Qed.

Lemma check_start_ok_resolves imports s :
  check_start (collect_task_names imports) s = Ok tt ↔
  ∃ entries, dict_get s "start" = Some (Map entries) ∧ entries ≠ []
             ∧ ∀ k, k ∈ dict_keys entries → resolves imports (scalar_str k).
Proof.
  rewrite check_start_ok. split.
  - intros (entry & more & Hget & Hall). exists (entry :: more).
    split; [done|]. split; [done|]. intros k Hk.
    apply unknown_key_resolves. apply negb_true_iff.
    by apply (proj1 (forallb_elem_of _ _) Hall).
  - intros ([|entry more] & Hget & Hne & Hall); [done|].
    exists entry, more. split; [done|]. apply forallb_elem_of. intros k Hk.
    apply negb_true_iff, unknown_key_resolves. by apply Hall.
Qed.

Lemma check_assignments_ok_resolves imports a :
  check_assignments (collect_task_names imports) a = Ok tt ↔
  ∃ items, dict_get a "assignments" = Some (Seq items) ∧ items ≠ []
           ∧ ∀ el, el ∈ items →
               ∃ ts, task_refs el = Some ts ∧ ∀ r, r ∈ ts → resolves imports (py_str r).
Proof.
  rewrite check_assignments_ok. split.
  - intros (el & rest & Hget & Hall). exists (el :: rest).
    split; [done|]. split; [done|]. intros x Hx.
    apply (proj1 (forallb_elem_of _ _) Hall) in Hx.
    destruct (task_refs x) as [ts|]; [|done]. exists ts. split; [done|].
    intros r Hr. apply unknown_ref_resolves, negb_true_iff.
    by apply (proj1 (forallb_elem_of _ _) Hx).
  - intros ([|el rest] & Hget & Hne & Hall); [done|].
    exists el, rest. split; [done|]. apply forallb_elem_of. intros x Hx.
    destruct (Hall x Hx) as (ts & -> & Hts). apply forallb_elem_of. intros r Hr.
    apply negb_true_iff, unknown_ref_resolves. by apply Hts.
Qed.

(** X1. Validation succeeds exactly when the import field is well typed,
    the start field is a non-empty mapping all of whose keys resolve, and
    the assignments field is a non-empty list of well-formed elements all of
    whose task references resolve, a reference resolving when its base
    identifier is the file stem of an import entry. *)
Theorem validate_ok_iff_all_resolve s a t :
  validate s a t = Ok tt ↔
  ∃ imports entries items,
    read_imports t = Ok imports
    ∧ dict_get s "start" = Some (Map entries) ∧ entries ≠ []
    ∧ (∀ k, k ∈ dict_keys entries → resolves imports (scalar_str k))
    ∧ dict_get a "assignments" = Some (Seq items) ∧ items ≠ []
    ∧ (∀ el, el ∈ items →
         ∃ ts, task_refs el = Some ts ∧ ∀ r, r ∈ ts → resolves imports (py_str r)).
Proof.
  split.
  - unfold validate. intros (imports & Himp & H)%bind_ok_inv.
    apply bind_ok_inv in H as ([] & Hs & Ha).
    apply check_start_ok_resolves in Hs as (entries & ? & ? & ?).
    apply check_assignments_ok_resolves in Ha as (items & ? & ? & ?).
    by exists imports, entries, items.
  - intros (imports & entries & items & Himp & Hs1 & Hs2 & Hs3 & Ha1 & Ha2 & Ha3).
    rewrite (validate_after_imports _ _ _ _ Himp).
    rewrite (proj2 (check_start_ok_resolves imports s)) by eauto.
    cbn [mbind result_bind]. apply check_assignments_ok_resolves. eauto.
Qed.

Lemma resolves_mono imports imports' ref :
  imports ⊆ imports' → resolves imports ref → resolves imports' ref.
Proof. intros Hsub (rel & Hin & Heq). exists rel. split; [by apply Hsub | done]. Qed.

(** X2. Adding entries to the import list never breaks a configuration:
    when validation succeeds against a registry, it succeeds against every
    registry whose well-typed import list contains the same entries and
    more. *)
Theorem more_imports_keep_validation_passing s a t t' imports imports' :
  read_imports t = Ok imports →
  read_imports t' = Ok imports' →
  imports ⊆ imports' →
  validate s a t = Ok tt →
  validate s a t' = Ok tt.
Proof.
  intros Himp Himp' Hsub. unfold validate. rewrite Himp, Himp'. cbn [mbind result_bind].
  intros ([] & Hs & Ha)%bind_ok_inv.
  apply check_start_ok_resolves in Hs as (entries & Hs1 & Hs2 & Hs3).
  apply check_assignments_ok_resolves in Ha as (items & Ha1 & Ha2 & Ha3).
  rewrite (proj2 (check_start_ok_resolves imports' s)).
  - cbn [mbind result_bind]. apply check_assignments_ok_resolves.
    exists items. split; [done|]. split; [done|]. intros el Hel.
    destruct (Ha3 el Hel) as (ts & Hts & Hall). exists ts. split; [done|].
    intros r Hr. eapply resolves_mono; eauto.
  - exists entries. split; [done|]. split; [done|].
    intros k Hk. eapply resolves_mono; eauto.
Qed.

(** X3. The outcome of validation, error message included, depends on the
    import list only through the set of its file stems: two registries whose
    imports have the same stems, in whatever order and with whatever
    repetitions, give the same result on every pair of documents. *)
Theorem imports_matter_through_their_stems s a t t' imports imports' :
  read_imports t = Ok imports →
  read_imports t' = Ok imports' →
  (∀ x, x ∈ path_stem <$> imports ↔ x ∈ path_stem <$> imports') →
  collect_task_names imports = collect_task_names imports'
  ∧ validate s a t = validate s a t'.
Proof.
  intros Himp Himp' Hsame.
  assert (Hnames : collect_task_names imports = collect_task_names imports').
  { apply set_eq. intros x. rewrite !elem_of_collect_task_names.
    specialize (Hsame x). rewrite !list_elem_of_fmap in Hsame.
    split; intros (rel & Hin & ->).
    - destruct (proj1 Hsame) as (rel' & ? & ?); eauto.
    - destruct (proj2 Hsame) as (rel' & ? & ?); eauto. }
  split; [done|].
  by rewrite (validate_after_imports _ _ _ _ Himp),
    (validate_after_imports _ _ _ _ Himp'), Hnames.
Qed.

(** X4. When the start document does not pass (its start field is not a
    non-empty mapping, or one of its keys does not resolve), the assignment
    document is not examined: the result is the same whatever that document
    holds, and it is a failure. *)
Theorem start_failure_decides_result s t imports :
  read_imports t = Ok imports →
  ¬ (∃ entries, dict_get s "start" = Some (Map entries) ∧ entries ≠ []
                ∧ ∀ k, k ∈ dict_keys entries → resolves imports (scalar_str k)) →
  ∀ a a', validate s a t = validate s a' t ∧ validate s a t ≠ Ok tt.
Proof.
  intros Himp Hbad a a'. rewrite !(validate_after_imports _ _ _ _ Himp).
  destruct (check_start (collect_task_names imports) s) as [[]|e] eqn:Hs.
  - by apply check_start_ok_resolves in Hs.
  - by split.
Qed.

(** X5. With an empty import list, and so with an absent import field or an
    empty registry document, validation never succeeds, and its result is
    decided by the start document alone: a non-empty start mapping has a
    key, and no key resolves against the empty Known Task Set. *)
Theorem empty_import_list_never_validates s a t :
  read_imports t = Ok [] →
  validate s a t ≠ Ok tt ∧ ∀ a', validate s a t = validate s a' t.
Proof.
  intros Himp.
  assert (Hbad : ¬ (∃ entries, dict_get s "start" = Some (Map entries) ∧ entries ≠ []
                      ∧ ∀ k, k ∈ dict_keys entries → resolves [] (scalar_str k))).
  { intros ([|[k v] more] & _ & Hne & Hall); [done|].
    destruct (Hall k) as (rel & Hin & _); [left|]. by apply elem_of_nil in Hin. }
  assert (Hstart : check_start (collect_task_names []) s ≠ Ok tt).
  { intros Hs. by apply check_start_ok_resolves in Hs. }
  split; [|intros a']; rewrite !(validate_after_imports _ _ _ _ Himp);
    by destruct (check_start (collect_task_names []) s) as [[]|e].
Qed.

(** ** The errors validation can raise *)

Lemma py_lt_error x y e :
  py_lt x y = Err e → e = unsupported_lt x y ∧ orderable x y = false.
Proof.
  destruct x as [|p|x|u], y as [|q|y|v]; simpl; try done; by intros [= <-].
Qed.

Lemma insert_sorted_perm x prefix : ∀ l,
  insert_sorted x prefix = Ok l → l ≡ₚ x :: prefix.
Proof.
  induction prefix as [|y rest IH]; intros l; simpl; [by intros [= <-]|].
  intros ([|] & Hlt & H)%bind_ok_inv; [by injection H as <-|].
  apply bind_ok_inv in H as (rest' & Hrest & [= <-]).
  rewrite (IH _ Hrest). apply perm_swap.
Qed.

Lemma insert_sorted_error x prefix e :
  insert_sorted x prefix = Err e →
  ∃ y, y ∈ prefix ∧ e = unsupported_lt x y ∧ orderable x y = false.
Proof.
  induction prefix as [|y rest IH]; simpl; [done|].
  destruct (py_lt x y) as [[|]|e'] eqn:Hlt; simpl; [done| |].
  - destruct (insert_sorted x rest) as [rest'|e'']; simpl; [done|].
    intros [= <-]. destruct IH as (z & Hz & ? & ?); [done|].
    exists z. split; [by right | done].
  - intros [= <-]. apply py_lt_error in Hlt as [-> ?].
    exists y. split; [left | done].
Qed.

Lemma sort_into_perm l : ∀ prefix out,
  sort_into prefix l = Ok out → out ≡ₚ prefix ++ l.
Proof.
  induction l as [|x rest IH]; intros prefix out; simpl.
  - intros [= <-]. by rewrite app_nil_r.
  - intros (prefix' & Hins & Hrest)%bind_ok_inv.
    rewrite (IH _ _ Hrest), (insert_sorted_perm _ _ _ Hins).
    by rewrite <- Permutation_middle.
Qed.

Lemma sort_into_error l e : ∀ prefix,
  sort_into prefix l = Err e →
  ∃ x y, x ∈ prefix ++ l ∧ y ∈ prefix ++ l
         ∧ e = unsupported_lt x y ∧ orderable x y = false.
Proof.
  induction l as [|x rest IH]; intros prefix; simpl; [done|].
  destruct (insert_sorted x prefix) as [prefix'|e'] eqn:Hins; simpl.
  - intros (a & b & Ha & Hb & ? & ?)%IH.
    assert (Hsame : prefix' ++ rest ≡ₚ prefix ++ x :: rest).
    { by rewrite (insert_sorted_perm _ _ _ Hins), <- Permutation_middle. }
    rewrite Hsame in Ha, Hb. by exists a, b.
  - intros [= <-]. apply insert_sorted_error in Hins as (y & Hy & ? & ?).
    exists x, y. split; [apply elem_of_app; right; left|].
    split; [apply elem_of_app; by left | done].
Qed.


Lemma read_imports_error t e : read_imports t = Err e → e = import_error.
Proof.
  rewrite read_imports_import_list. destruct (import_list t); [done|]. by intros [= <-].
Qed.

Lemma check_start_errors names s e :
  check_start names s = Err e →
  (e = start_error ∧ ¬ ∃ entry more, dict_get s "start" = Some (Map (entry :: more)))
  ∨ (∃ entries x y,
       dict_get s "start" = Some (Map entries)
       ∧ x ∈ List.filter (unknown_key names) (dict_keys entries)
       ∧ y ∈ List.filter (unknown_key names) (dict_keys entries)
       ∧ e = unsupported_lt x y ∧ orderable x y = false)
  ∨ (∃ entries listed,
       dict_get s "start" = Some (Map entries)
       ∧ listed ≡ₚ List.filter (unknown_key names) (dict_keys entries)
       ∧ listed ≠ []
       ∧ e = RuntimeError (start_unknown_prefix +:+ join ", " (map scalar_str listed))).
Proof.
  unfold check_start, dict_get_default.
  destruct (dict_get s "start") as [[k|items|[|entry more]]|];
    cbn [default from_option id];
    try (intros [= <-]; left; split; [done | by intros (? & ? & ?)]).
  destruct (py_sorted _) as [listed|e'] eqn:Hsorted; cbn [mbind result_bind].
  - destruct listed as [|k listed]; [done|]. intros [= <-]. right. right.
    exists (entry :: more), (k :: listed). split; [done|].
    split; [by apply (sort_into_perm _ [])|]. done.
  - intros [= <-]. right. left.
    apply sort_into_error in Hsorted as (x & y & Hx & Hy & ? & ?).
    by exists (entry :: more), x, y.
Qed.

Lemma scan_assignments_errors names items e : ∀ unknown,
  scan_assignments names unknown items = Err e →
  e = not_mapping_error ∨ e = task_type_error.
Proof.
  induction items as [|x items IH]; intros unknown; [done|].
  rewrite scan_assignments_cons.
  destruct (task_refs x) as [ts|] eqn:Hx.
  - rewrite (check_assignment_well_formed _ _ _ _ Hx). apply IH.
  - rewrite (check_assignment_malformed _ _ _ Hx). intros [= <-].
    unfold structural_error. destruct (is_dict x); auto.
Qed.

Lemma check_assignments_errors names a e :
  check_assignments names a = Err e →
  (e = assignments_error
   ∧ ¬ ∃ el rest, dict_get a "assignments" = Some (Seq (el :: rest)))
  ∨ e = not_mapping_error ∨ e = task_type_error
  ∨ ∃ vs, vs ≠ [] ∧ e = RuntimeError (assign_unknown_prefix +:+ join ", " (map py_str vs)).
Proof.
  unfold check_assignments, dict_get_default.
  destruct (dict_get a "assignments") as [[k|[|el rest]|d]|];
    cbn [default from_option id];
    try (intros [= <-]; left; split; [done | by intros (? & ? & ?)]).
  destruct (scan_assignments names [] (el :: rest)) as [vs|e'] eqn:Hscan;
    cbn [mbind result_bind].
  - destruct vs as [|v vs]; [done|]. intros [= <-]. right. right. right.
    by exists (v :: vs).
  - intros [= <-]. apply scan_assignments_errors in Hscan as [->| ->]; auto.
Qed.



(** X8. Validation fails with the start schema error exactly when the
    import field is well typed and the start field of the start document is
    absent, is not a mapping, or is an empty mapping; the assignment
    document plays no part. *)
Theorem start_schema_error_iff s a t :
  validate s a t
  = Err (RuntimeError "configs/start_task_lite.yaml must have non-empty mapping field: start")
  ↔ (∃ imports, read_imports t = Ok imports)
    ∧ ¬ ∃ entry more, dict_get s "start" = Some (Map (entry :: more)).
Proof.
  unfold validate. split.
  - destruct (read_imports t) as [imports|e'] eqn:Himp; cbn [mbind result_bind].
    + destruct (check_start (collect_task_names imports) s) as [[]|e'] eqn:Hs;
        cbn [mbind result_bind].
      * intros [[? _]|[?|[?|(vs & _ & ?)]]]%check_assignments_errors; done.
      * intros [= ->].
        apply check_start_errors in Hs
          as [[_ Hshape]|[(? & ? & ? & _ & _ & _ & ? & _)|(? & ? & _ & _ & _ & ?)]];
          try done.
        split; [by exists imports | done].
    + intros [= ->]. by apply read_imports_error in Himp.
  - intros [[imports ->] Hshape]. cbn [mbind result_bind].
    unfold check_start, dict_get_default.
    destruct (dict_get s "start") as [[k|items|[|entry more]]|];
      cbn [default from_option id]; try done.
    destruct Hshape. eauto.
Qed.

(** X9. Validation fails with the assignments schema error exactly when the
    import and start stages pass and the assignments field of the assignment
    document is absent, is not a list, or is an empty list. *)
Theorem assignments_schema_error_iff s a t :
  validate s a t
  = Err (RuntimeError
           "configs/assignments/lite.yaml must have a non-empty list field: assignments")
  ↔ (∃ imports, read_imports t = Ok imports
                ∧ check_start (collect_task_names imports) s = Ok tt)
    ∧ ¬ ∃ el rest, dict_get a "assignments" = Some (Seq (el :: rest)).
Proof.
  unfold validate. split.
  - destruct (read_imports t) as [imports|e'] eqn:Himp; cbn [mbind result_bind].
    + destruct (check_start (collect_task_names imports) s) as [[]|e'] eqn:Hs;
        cbn [mbind result_bind].
      * intros [[_ Hshape]|[?|[?|(vs & _ & ?)]]]%check_assignments_errors; try done.
        split; [by exists imports | done].
      * intros [= ->].
        by apply check_start_errors in Hs
          as [[? _]|[(? & ? & ? & _ & _ & _ & ? & _)|(? & ? & _ & _ & _ & ?)]].
    + intros [= ->]. by apply read_imports_error in Himp.
  - intros [(imports & -> & Hs) Hshape]. cbn [mbind result_bind].
    rewrite Hs. cbn [mbind result_bind].
    unfold check_assignments, dict_get_default.
    destruct (dict_get a "assignments") as [[k|[|el rest]|d]|];
      cbn [default from_option id]; try done.
    destruct Hshape. eauto.
Qed.

(** X10. When the import and start stages pass, the error reported for the
    assignment list is that of its first malformed element: "Each assignment
    must be a mapping" if that element is not a mapping, and
    "assignment.task must be a string or list" if it is a mapping, whatever
    follows it in the list. *)
Theorem first_malformed_assignment_reported s a t imports pre bad post :
  read_imports t = Ok imports →
  check_start (collect_task_names imports) s = Ok tt →
  dict_get a "assignments" = Some (Seq (pre ++ bad :: post)) →
  Forall (λ el, is_Some (task_refs el)) pre →
  task_refs bad = None →
  validate s a t
  = Err (RuntimeError (if is_dict bad then "assignment.task must be a string or list"
                       else "Each assignment must be a mapping")).
Proof.
  intros Himp Hstart Hget Hpre Hbad.
  rewrite (validate_after_imports _ _ _ _ Himp), Hstart.
  unfold check_assignments, dict_get_default. rewrite Hget.
  assert (Hscan : scan_assignments (collect_task_names imports) [] (pre ++ bad :: post)
                  = Err (structural_error bad)).
  { rewrite scan_assignments_app, (scan_assignments_well_formed _ _ _ Hpre).
    cbn [mbind result_bind].
    by rewrite scan_assignments_cons, (check_assignment_malformed _ _ _ Hbad). }
  destruct (pre ++ bad :: post) as [|el rest] eqn:Hitems; [by destruct pre|].
  cbn [default from_option id mbind result_bind]. rewrite Hscan.
  unfold structural_error. by destruct (is_dict bad).
Qed.

(** ** The order of the steps of [main] *)

(** X11. The three files are looked for before any of them is read: when a
    required file is missing, [main] fails with "Missing required file"
    followed by the path of the first missing one in the order start,
    assignments, registry, whatever the files that exist contain, and the
    run reports that message with status 1. *)
Theorem missing_file_reported_first w :
  (f_exists (start_lite_file w) = false →
   main w = Err (RuntimeError ("Missing required file: "
                               +:+ under (root w) "configs/start_task_lite.yaml"))
   ∧ run w = Outcome 1 "" ("ERROR: Missing required file: "
                           +:+ under (root w) "configs/start_task_lite.yaml" +:+ newline))
  ∧ (f_exists (start_lite_file w) = true →
     f_exists (assign_lite_file w) = false →
     main w = Err (RuntimeError ("Missing required file: "
                                 +:+ under (root w) "configs/assignments/lite.yaml"))
     ∧ run w = Outcome 1 "" ("ERROR: Missing required file: "
                             +:+ under (root w) "configs/assignments/lite.yaml" +:+ newline))
  ∧ (f_exists (start_lite_file w) = true →
     f_exists (assign_lite_file w) = true →
     f_exists (task_assembly_file w) = false →
     main w = Err (RuntimeError ("Missing required file: "
                                 +:+ under (root w) "configs/tasks/task_assembly.yaml"))
     ∧ run w = Outcome 1 "" ("ERROR: Missing required file: "
                             +:+ under (root w) "configs/tasks/task_assembly.yaml"
                             +:+ newline)).
Proof.
  unfold run, main, require_file. split; [|split].
  - by intros ->.
  - by intros -> ->.
  - by intros -> -> ->.
Qed.

(** X12. When the three files exist, they are loaded in the order start,
    assignments, registry, and all of them before any cross-reference check:
    the error of the first file that fails to load (unreadable, or not a
    mapping at top level) is the error of [main], whatever the documents
    loaded before it hold. *)
Theorem load_failure_reported_before_validation w e :
  f_exists (start_lite_file w) = true →
  f_exists (assign_lite_file w) = true →
  f_exists (task_assembly_file w) = true →
  (load_yaml (under (root w) "configs/start_task_lite.yaml") (f_read (start_lite_file w))
   = Err e → main w = Err e)
  ∧ (∀ s,
       load_yaml (under (root w) "configs/start_task_lite.yaml") (f_read (start_lite_file w))
       = Ok s →
       load_yaml (under (root w) "configs/assignments/lite.yaml") (f_read (assign_lite_file w))
       = Err e → main w = Err e)
  ∧ (∀ s a,
       load_yaml (under (root w) "configs/start_task_lite.yaml") (f_read (start_lite_file w))
       = Ok s →
       load_yaml (under (root w) "configs/assignments/lite.yaml") (f_read (assign_lite_file w))
       = Ok a →
       load_yaml (under (root w) "configs/tasks/task_assembly.yaml")
         (f_read (task_assembly_file w))
       = Err e → main w = Err e).
Proof.
  intros H1 H2 H3. unfold main, require_file. rewrite H1, H2, H3.
  cbn [negb raise_if mbind result_bind]. repeat split.
  - by intros ->.
  - by intros s -> ->.
  - by intros s a -> -> ->.
Qed.

(** X13. An empty start document is not a parse error: when the three
    files exist, the start file decodes to null, and the other two load with
    a well-typed import field, [main] fails with the start schema error, as
    it does for a start document that is an empty mapping. *)
Theorem empty_start_document_lacks_start_field w a t imports :
  f_exists (start_lite_file w) = true →
  f_exists (assign_lite_file w) = true →
  f_exists (task_assembly_file w) = true →
  f_read (start_lite_file w) = Decoded VNone ∨ f_read (start_lite_file w) = Decoded (Map []) →
  load_yaml (under (root w) "configs/assignments/lite.yaml") (f_read (assign_lite_file w))
  = Ok a →
  load_yaml (under (root w) "configs/tasks/task_assembly.yaml") (f_read (task_assembly_file w))
  = Ok t →
  read_imports t = Ok imports →
  main w
  = Err (RuntimeError "configs/start_task_lite.yaml must have non-empty mapping field: start")
  ∧ exit_status (run w) = 1.
Proof.
  intros H1 H2 H3 Hnull Ha Ht Himp.
  assert (Hmain : main w = Err start_error).
  { unfold main, require_file. rewrite H1, H2, H3, Ha, Ht.
    cbn [negb raise_if mbind result_bind].
    assert (Hs : load_yaml (under (root w) "configs/start_task_lite.yaml")
                   (f_read (start_lite_file w)) = Ok []) by by destruct Hnull as [-> | ->].
    rewrite Hs. cbn [mbind result_bind].
    by rewrite (validate_after_imports _ _ _ _ Himp). }
  split; [done|]. unfold run. by rewrite Hmain.
Qed.

(** ** Integer references *)

Lemma uint_str_no_hyphen d : contains_char hyphen (NilEmpty.string_of_uint d) = false.
Proof. induction d; simpl; done. Qed.

(** X14. An integer reference is looked up by its decimal text: a
    non-negative integer is its own base identifier, while the text of a
    negative one starts with the minus sign, so its base identifier is the
    empty string and the integer resolves exactly when the empty string is a
    known task name. *)
Theorem integer_reference_base z :
  (0 ≤ z →
   base_identifier (int_str z) = int_str z
   ∧ ∀ names, unknown_key names (SInt z) = bool_decide (int_str z ∉ names))
  ∧ (z < 0 →
     base_identifier (int_str z) = ""
     ∧ ∀ names, unknown_key names (SInt z) = bool_decide ("" ∉ names)).
Proof.
  assert (Hpos : 0 ≤ z → base_identifier (int_str z) = int_str z).
  { intros Hz. unfold base_identifier, int_str. rewrite split_on_absent; [done|].
    destruct z as [|p|p]; [done| |lia]. simpl.
    unfold NilZero.string_of_uint. destruct (Pos.to_uint p); apply uint_str_no_hyphen || done. }
  assert (Hneg : z < 0 → base_identifier (int_str z) = "").
  { intros Hz. destruct z as [|p|p]; [lia|lia|]. done. }
  split; intros Hz; (split; [auto|]); intros names; unfold unknown_key;
    cbn [scalar_str]; by rewrite ?(Hpos Hz), ?(Hneg Hz).
Qed.

End Checker.

(** * Concrete runs *)

Lemma unknown_start_keys_reported_sorted_witness :
  read_imports sample_registry = Ok sample_imports
  ∧ dict_get unsorted_start "start"
    = Some (Map [(SStr "zeta", VInt 1); (SStr "webshop-lite", VInt 1); (SStr "alpha", VInt 1)])
  ∧ ∃ listed,
      listed ≡ₚ [SStr "zeta"; SStr "alpha"]
      ∧ StronglySorted scalar_le listed
      ∧ validate plain_repr posix_stem unsorted_start sample_assign sample_registry
        = Err (RuntimeError (start_unknown_prefix +:+ join ", " (map scalar_str listed))).
Proof.
  split; [reflexivity|]. split; [reflexivity|].
  assert (Hunknown :
    List.filter (unknown_key (collect_task_names posix_stem sample_imports))
      (dict_keys [(SStr "zeta", VInt 1); (SStr "webshop-lite", VInt 1); (SStr "alpha", VInt 1)])
    = [SStr "zeta"; SStr "alpha"]) by (vm_compute; reflexivity).
  rewrite <- Hunknown.
  apply (unknown_start_keys_reported_sorted plain_repr posix_stem
           unsorted_start sample_assign sample_registry sample_imports).
  - reflexivity.
  - reflexivity.
  - rewrite Hunknown. discriminate.
  - rewrite Hunknown. intros x y Hx Hy.
    apply elem_of_cons in Hx as [->|Hx]; [|apply list_elem_of_singleton in Hx as ->];
      (apply elem_of_cons in Hy as [->|Hy]; [|apply list_elem_of_singleton in Hy as ->]);
      reflexivity.
Defined.

(** C1, as stated, fails: the unknown keys of [unsorted_start] in insertion
    order are [zeta, alpha], and the message lists them as "alpha, zeta". *)
Lemma start_keys_not_listed_in_insertion_order :
  List.filter (unknown_key (collect_task_names posix_stem sample_imports))
    (dict_keys [(SStr "zeta", VInt 1); (SStr "webshop-lite", VInt 1); (SStr "alpha", VInt 1)])
  = [SStr "zeta"; SStr "alpha"]
  ∧ validate plain_repr posix_stem unsorted_start sample_assign sample_registry
    = Err (RuntimeError (start_unknown_prefix +:+ "alpha, zeta"))
  ∧ validate plain_repr posix_stem unsorted_start sample_assign sample_registry
    ≠ Err (RuntimeError (start_unknown_prefix +:+ "zeta, alpha")).
Proof.
  split; [vm_compute; reflexivity|]. split; [vm_compute; reflexivity|].
  vm_compute. discriminate.
Qed.

Lemma import_field_checked_witness :
  (dict_get [(SStr "import", VStr "webshop.yaml")] "import" = Some (VStr "webshop.yaml")
   ∧ is_str_list (VStr "webshop.yaml") = false
   ∧ validate plain_repr posix_stem sample_start sample_assign
       [(SStr "import", VStr "webshop.yaml")]
     = Err (RuntimeError "configs/tasks/task_assembly.yaml must have a list field: import"))
  ∧ (dict_get [(SStr "default", Map [])] "import" = None
     ∧ read_imports [(SStr "default", Map [])] = Ok []
     ∧ validate plain_repr posix_stem sample_start sample_assign [(SStr "default", Map [])]
       = (check_start ∅ sample_start ≫= λ _, check_assignments plain_repr ∅ sample_assign)).
Proof.
  split.
  - split; [reflexivity|]. split; [reflexivity|].
    apply (proj1 (import_field_checked plain_repr posix_stem sample_start sample_assign
                    [(SStr "import", VStr "webshop.yaml")]) (VStr "webshop.yaml"));
      reflexivity.
  - split; [reflexivity|].
    destruct (proj2 (import_field_checked plain_repr posix_stem sample_start sample_assign
                       [(SStr "default", Map [])]) eq_refl) as (Himp & _ & Hval).
    split; [exact Himp | exact Hval].
Defined.

(** C2, as stated, fails: a registry document without an [import] field
    does not raise the schema error; validation goes on with an empty Known
    Task Set and reports the start keys as unknown. *)
Lemma absent_import_is_not_a_schema_error :
  dict_get [(SStr "default", Map [])] "import" = None
  ∧ validate plain_repr posix_stem sample_start sample_assign [(SStr "default", Map [])]
    = Err (RuntimeError (start_unknown_prefix +:+ "webshop-lite"))
  ∧ validate plain_repr posix_stem sample_start sample_assign [(SStr "default", Map [])]
    ≠ Err (RuntimeError "configs/tasks/task_assembly.yaml must have a list field: import").
Proof.
  split; [reflexivity|]. split; [vm_compute; reflexivity|].
  vm_compute. discriminate.
Qed.

Lemma unknown_assignment_refs_reported_witness :
  read_imports sample_registry = Ok sample_imports
  ∧ check_start (collect_task_names posix_stem sample_imports) sample_start = Ok tt
  ∧ dict_get ghost_assign "assignments"
    = Some (Seq [Map [(SStr "task", Seq [VStr "webshop"; VStr "ghosttask-v2"])]])
  ∧ violations plain_repr (collect_task_names posix_stem sample_imports)
      [Map [(SStr "task", Seq [VStr "webshop"; VStr "ghosttask-v2"])]]
    = [VStr "ghosttask-v2"]
  ∧ validate plain_repr posix_stem sample_start ghost_assign sample_registry
    = Err (RuntimeError (assign_unknown_prefix +:+ "ghosttask-v2")).
Proof.
  assert (Hv : violations plain_repr (collect_task_names posix_stem sample_imports)
                 [Map [(SStr "task", Seq [VStr "webshop"; VStr "ghosttask-v2"])]]
               = [VStr "ghosttask-v2"]) by (vm_compute; reflexivity).
  split; [reflexivity|]. split; [vm_compute; reflexivity|]. split; [reflexivity|].
  split; [exact Hv|].
  change (assign_unknown_prefix +:+ "ghosttask-v2")
    with (assign_unknown_prefix +:+ join ", " (map (py_str plain_repr) [VStr "ghosttask-v2"])).
  rewrite <- Hv.
  apply (unknown_assignment_refs_reported plain_repr posix_stem
           sample_start ghost_assign sample_registry sample_imports
           [Map [(SStr "task", Seq [VStr "webshop"; VStr "ghosttask-v2"])]]).
  - reflexivity.
  - vm_compute; reflexivity.
  - reflexivity.
  - repeat constructor. by eexists.
  - rewrite Hv. discriminate.
Defined.

Lemma load_yaml_decoded_witness :
  (load_yaml "/repo/configs/start_task_lite.yaml" (Decoded (Seq [VStr "webshop"])) = Ok []
   ↔ Seq [VStr "webshop"] = VNone ∨ Seq [VStr "webshop"] = Map [])
  ∧ load_yaml "/repo/configs/start_task_lite.yaml" (Decoded (Map sample_start))
    = Ok sample_start
  ∧ is_none (Seq [VStr "webshop"]) = false
  ∧ is_dict (Seq [VStr "webshop"]) = false
  ∧ load_yaml "/repo/configs/start_task_lite.yaml" (Decoded (Seq [VStr "webshop"]))
    = Err (RuntimeError
             "Expected mapping at top-level in /repo/configs/start_task_lite.yaml, got <class 'list'>").
Proof.
  split; [exact (proj1 (load_yaml_decoded "/repo/configs/start_task_lite.yaml"
                          (Seq [VStr "webshop"])))|].
  split; [exact (proj1 (proj2 (load_yaml_decoded "/repo/configs/start_task_lite.yaml"
                                 (Map sample_start))) sample_start eq_refl)|].
  split; [reflexivity|]. split; [reflexivity|].
  exact (proj2 (proj2 (load_yaml_decoded "/repo/configs/start_task_lite.yaml"
                         (Seq [VStr "webshop"]))) eq_refl eq_refl).
Defined.

(** C5, as stated, fails: a document that decodes to the empty mapping is
    not null, and the loader returns an empty mapping for it. *)
Lemma empty_mapping_document_is_not_null :
  ¬ (load_yaml "/repo/configs/start_task_lite.yaml" (Decoded (Map [])) = Ok []
     ↔ Map [] = VNone).
Proof. intros [Hnull _]. by specialize (Hnull eq_refl). Qed.

Lemma task_field_forms_witness :
  (dict_get [(SStr "task", VStr "os-std")] "task" = Some (VStr "os-std")
   ∧ check_assignment plain_repr ∅ [] (Map [(SStr "task", VStr "os-std")])
     = Ok (scan_tasks plain_repr ∅ [] [VStr "os-std"]))
  ∧ (dict_get [(SStr "task", Seq [VStr "os-std"; VInt 7])] "task"
     = Some (Seq [VStr "os-std"; VInt 7])
     ∧ check_assignment plain_repr ∅ [] (Map [(SStr "task", Seq [VStr "os-std"; VInt 7])])
       = Ok (scan_tasks plain_repr ∅ [] [VStr "os-std"; VInt 7]))
  ∧ (dict_get [(SStr "task", VInt 3)] "task" = Some (VInt 3)
     ∧ is_str (VInt 3) = false ∧ is_list (VInt 3) = false
     ∧ check_assignment plain_repr ∅ [] (Map [(SStr "task", VInt 3)])
       = Err (RuntimeError "assignment.task must be a string or list")
     ∧ read_imports sample_registry = Ok sample_imports
     ∧ check_start (collect_task_names posix_stem sample_imports) sample_start = Ok tt
     ∧ dict_get malformed_assign "assignments"
       = Some (Seq ([Map [(SStr "task", VStr "ghosttask-v2")]]
                    ++ Map [(SStr "task", VInt 3)] :: []))
     ∧ validate plain_repr posix_stem sample_start malformed_assign sample_registry
       = Err (RuntimeError "assignment.task must be a string or list")).
Proof.
  split; [split; [reflexivity|]|split; [split; [reflexivity|]|]].
  - exact (proj1 (task_field_forms plain_repr posix_stem ∅ [] [(SStr "task", VStr "os-std")]
                    (VStr "os-std") eq_refl) "os-std" eq_refl).
  - exact (proj1 (proj2 (task_field_forms plain_repr posix_stem ∅ []
                           [(SStr "task", Seq [VStr "os-std"; VInt 7])]
                           (Seq [VStr "os-std"; VInt 7]) eq_refl))
             [VStr "os-std"; VInt 7] eq_refl).
  - assert (Hstart : check_start (collect_task_names posix_stem sample_imports) sample_start
                     = Ok tt) by (vm_compute; reflexivity).
    destruct (proj2 (proj2 (task_field_forms plain_repr posix_stem ∅ []
                              [(SStr "task", VInt 3)] (VInt 3) eq_refl)) eq_refl eq_refl)
      as [Hbody Hvalidate].
    split; [reflexivity|]. split; [reflexivity|]. split; [reflexivity|].
    split; [exact Hbody|]. split; [reflexivity|]. split; [exact Hstart|].
    split; [reflexivity|].
    apply (Hvalidate sample_start malformed_assign sample_registry sample_imports
             [Map [(SStr "task", VStr "ghosttask-v2")]] []);
      [reflexivity | exact Hstart | reflexivity |].
    repeat constructor. by eexists.
Defined.

Lemma absent_task_field_passes_witness :
  dict_get [(SStr "agent", VStr "gpt")] "task" = None
  ∧ check_assignment plain_repr ∅ [VStr "ghosttask-v2"] (Map [(SStr "agent", VStr "gpt")])
    = Ok [VStr "ghosttask-v2"].
Proof.
  split; [reflexivity|].
  exact (proj1 (absent_task_field_passes plain_repr ∅ [VStr "ghosttask-v2"]
                  [(SStr "agent", VStr "gpt")] eq_refl)).
Defined.

Lemma structural_error_preempts_violations_witness :
  read_imports sample_registry = Ok sample_imports
  ∧ check_start (collect_task_names posix_stem sample_imports) sample_start = Ok tt
  ∧ violations plain_repr (collect_task_names posix_stem sample_imports)
      [Map [(SStr "task", VStr "ghosttask-v2")]] = [VStr "ghosttask-v2"]
  ∧ task_refs (Map [(SStr "task", VInt 3)]) = None
  ∧ validate plain_repr posix_stem sample_start malformed_assign sample_registry
    = Err (RuntimeError "assignment.task must be a string or list").
Proof.
  split; [reflexivity|]. split; [vm_compute; reflexivity|].
  split; [vm_compute; reflexivity|]. split; [reflexivity|].
  destruct (structural_error_preempts_violations plain_repr posix_stem
              sample_start malformed_assign sample_registry sample_imports
              [Map [(SStr "task", VStr "ghosttask-v2")]; Map [(SStr "task", VInt 3)]])
    as (_ & [Hmap|Htask] & _).
  - reflexivity.
  - vm_compute; reflexivity.
  - reflexivity.
  - right. left. reflexivity.
  - exfalso. revert Hmap. vm_compute. discriminate.
  - exact Htask.
Defined.

Lemma run_outcome_witness :
  (checks_pass plain_repr posix_stem (sample_world sample_start) = true
   ∧ run plain_repr posix_stem (sample_world sample_start)
     = Outcome 0 ("OK: lite configs look valid" +:+ newline) "")
  ∧ (checks_pass plain_repr posix_stem (sample_world unsorted_start) = false
     ∧ ∃ e, main plain_repr posix_stem (sample_world unsorted_start) = Err e
            ∧ run plain_repr posix_stem (sample_world unsorted_start)
              = Outcome 1 "" ("ERROR: " +:+ exn_str e +:+ newline)).
Proof.
  assert (Hpass : checks_pass plain_repr posix_stem (sample_world sample_start) = true)
    by (vm_compute; reflexivity).
  assert (Hfail : checks_pass plain_repr posix_stem (sample_world unsorted_start) = false)
    by (vm_compute; reflexivity).
  split; (split; [assumption|]).
  - exact (proj1 (proj1 (run_outcome plain_repr posix_stem (sample_world sample_start)) Hpass)).
  - destruct (proj2 (run_outcome plain_repr posix_stem (sample_world unsorted_start)) Hfail)
      as (e & Hmain & Hrun & _).
    exists e. split; assumption.
Defined.

(** C7, as stated, fails: a start key that holds a line break is unknown,
    and the report written to standard error spans two lines. *)
Lemma error_report_may_span_lines :
  exit_status (run plain_repr posix_stem (sample_world multiline_start)) = 1
  ∧ stderr (run plain_repr posix_stem (sample_world multiline_start))
    = "ERROR: " +:+ start_unknown_prefix +:+ "ghost" +:+ newline +:+ "task" +:+ newline
  ∧ line_breaks (stderr (run plain_repr posix_stem (sample_world multiline_start))) = 2%nat.
Proof. vm_compute. repeat split; reflexivity. Qed.

(** C10, the code at the failing input. With the start mapping
    [{1: null, zz: null}] neither key resolves, the two keys are passed to
    [sorted] as they are, and validation ends in a [TypeError] instead of the
    unknown-reference report. *)
Theorem mixed_start_keys_raise_type_error :
  List.filter (unknown_key (collect_task_names posix_stem sample_imports))
    (dict_keys [(SInt 1, VNone); (SStr "zz", VNone)])
  = [SInt 1; SStr "zz"]
  ∧ validate plain_repr posix_stem mixed_start sample_assign sample_registry
    = Err (TypeError "'<' not supported between instances of 'str' and 'int'")
  ∧ run plain_repr posix_stem (sample_world mixed_start)
    = Outcome 1 "" ("ERROR: '<' not supported between instances of 'str' and 'int'"
                    +:+ newline).
Proof. vm_compute. repeat split; reflexivity. Qed.

(** ** Concrete runs of the further properties *)

Lemma validate_ok_iff_all_resolve_witness :
  validate plain_repr posix_stem sample_start sample_assign sample_registry = Ok tt
  ∧ ∃ imports entries items,
      read_imports sample_registry = Ok imports
      ∧ dict_get sample_start "start" = Some (Map entries) ∧ entries ≠ []
      ∧ (∀ k, k ∈ dict_keys entries → resolves posix_stem imports (scalar_str k))
      ∧ dict_get sample_assign "assignments" = Some (Seq items) ∧ items ≠ []
      ∧ (∀ el, el ∈ items →
           ∃ ts, task_refs el = Some ts
                 ∧ ∀ r, r ∈ ts → resolves posix_stem imports (py_str plain_repr r)).
Proof.
  assert (Hok : validate plain_repr posix_stem sample_start sample_assign sample_registry
                = Ok tt) by (vm_compute; reflexivity).
  split; [exact Hok|].
  exact (proj1 (validate_ok_iff_all_resolve plain_repr posix_stem
                  sample_start sample_assign sample_registry) Hok).
Defined.

Lemma more_imports_keep_validation_passing_witness :
  read_imports sample_registry = Ok sample_imports
  ∧ read_imports [(SStr "import", Seq [VStr "db.yaml"; VStr "webshop.yaml"; VStr "tasks/os.yaml"])]
    = Ok ("db.yaml" :: sample_imports)
  ∧ sample_imports ⊆ "db.yaml" :: sample_imports
  ∧ validate plain_repr posix_stem sample_start sample_assign sample_registry = Ok tt
  ∧ validate plain_repr posix_stem sample_start sample_assign
      [(SStr "import", Seq [VStr "db.yaml"; VStr "webshop.yaml"; VStr "tasks/os.yaml"])]
    = Ok tt.
Proof.
  assert (Hsub : sample_imports ⊆ "db.yaml" :: sample_imports)
    by (intros x Hx; by right).
  assert (Hok : validate plain_repr posix_stem sample_start sample_assign sample_registry
                = Ok tt) by (vm_compute; reflexivity).
  split; [reflexivity|]. split; [reflexivity|]. split; [exact Hsub|]. split; [exact Hok|].
  exact (more_imports_keep_validation_passing plain_repr posix_stem
           sample_start sample_assign sample_registry
           [(SStr "import", Seq [VStr "db.yaml"; VStr "webshop.yaml"; VStr "tasks/os.yaml"])]
           sample_imports ("db.yaml" :: sample_imports) eq_refl eq_refl Hsub Hok).
Defined.

Lemma imports_matter_through_their_stems_witness :
  read_imports sample_registry = Ok sample_imports
  ∧ read_imports [(SStr "import", Seq [VStr "old/os.yml"; VStr "webshop.yaml"; VStr "os.yaml"])]
    = Ok ["old/os.yml"; "webshop.yaml"; "os.yaml"]
  ∧ posix_stem <$> sample_imports = ["webshop"; "os"]
  ∧ posix_stem <$> ["old/os.yml"; "webshop.yaml"; "os.yaml"] = ["os"; "webshop"; "os"]
  ∧ validate plain_repr posix_stem unsorted_start sample_assign sample_registry
    = validate plain_repr posix_stem unsorted_start sample_assign
        [(SStr "import", Seq [VStr "old/os.yml"; VStr "webshop.yaml"; VStr "os.yaml"])].
Proof.
  assert (E1 : posix_stem <$> sample_imports = ["webshop"; "os"])
    by (vm_compute; reflexivity).
  assert (E2 : posix_stem <$> ["old/os.yml"; "webshop.yaml"; "os.yaml"]
               = ["os"; "webshop"; "os"]) by (vm_compute; reflexivity).
  split; [reflexivity|]. split; [reflexivity|]. split; [exact E1|]. split; [exact E2|].
  apply (imports_matter_through_their_stems plain_repr posix_stem
           unsorted_start sample_assign sample_registry
           [(SStr "import", Seq [VStr "old/os.yml"; VStr "webshop.yaml"; VStr "os.yaml"])]
           sample_imports ["old/os.yml"; "webshop.yaml"; "os.yaml"] eq_refl eq_refl).
  intros x. rewrite E1, E2. rewrite !elem_of_cons, !elem_of_nil. tauto.
Defined.

Lemma start_failure_decides_result_witness :
  read_imports sample_registry = Ok sample_imports
  ∧ ¬ resolves posix_stem sample_imports "zeta"
  ∧ validate plain_repr posix_stem unsorted_start sample_assign sample_registry
    = validate plain_repr posix_stem unsorted_start malformed_assign sample_registry
  ∧ validate plain_repr posix_stem unsorted_start sample_assign sample_registry ≠ Ok tt.
Proof.
  assert (Hzeta : ¬ resolves posix_stem sample_imports "zeta").
  { intros (rel & Hin & Heq).
    apply elem_of_cons in Hin as [->|Hin];
      [|apply list_elem_of_singleton in Hin as ->]; vm_compute in Heq; discriminate. }
  split; [reflexivity|]. split; [exact Hzeta|].
  apply (start_failure_decides_result plain_repr posix_stem
           unsorted_start sample_registry sample_imports eq_refl).
  intros (entries & Hget & _ & Hall). injection Hget as <-.
  apply Hzeta, (Hall (SStr "zeta")). left.
Defined.

Lemma empty_import_list_never_validates_witness :
  read_imports [] = Ok []
  ∧ validate plain_repr posix_stem sample_start sample_assign [] ≠ Ok tt
  ∧ ∀ a', validate plain_repr posix_stem sample_start sample_assign []
          = validate plain_repr posix_stem sample_start a' [].
Proof.
  split; [reflexivity|].
  exact (empty_import_list_never_validates plain_repr posix_stem
           sample_start sample_assign [] eq_refl).
Defined.



Lemma start_schema_error_iff_witness :
  (∃ imports, read_imports sample_registry = Ok imports)
  ∧ (¬ ∃ entry more, dict_get [(SStr "start", Map [])] "start" = Some (Map (entry :: more)))
  ∧ validate plain_repr posix_stem [(SStr "start", Map [])] sample_assign sample_registry
    = Err (RuntimeError "configs/start_task_lite.yaml must have non-empty mapping field: start").
Proof.
  assert (Himp : ∃ imports, read_imports sample_registry = Ok imports)
    by (by exists sample_imports).
  assert (Hshape : ¬ ∃ entry more,
            dict_get [(SStr "start", Map [])] "start" = Some (Map (entry :: more)))
    by (intros (entry & more & Hget); discriminate).
  split; [exact Himp|]. split; [exact Hshape|].
  exact (proj2 (start_schema_error_iff plain_repr posix_stem
                  [(SStr "start", Map [])] sample_assign sample_registry)
           (conj Himp Hshape)).
Defined.

Lemma assignments_schema_error_iff_witness :
  read_imports sample_registry = Ok sample_imports
  ∧ check_start (collect_task_names posix_stem sample_imports) sample_start = Ok tt
  ∧ (¬ ∃ el rest, dict_get [(SStr "assignments", VStr "webshop")] "assignments"
                  = Some (Seq (el :: rest)))
  ∧ validate plain_repr posix_stem sample_start [(SStr "assignments", VStr "webshop")]
      sample_registry
    = Err (RuntimeError
             "configs/assignments/lite.yaml must have a non-empty list field: assignments").
Proof.
  assert (Hstart : check_start (collect_task_names posix_stem sample_imports) sample_start
                   = Ok tt) by (vm_compute; reflexivity).
  assert (Hshape : ¬ ∃ el rest,
            dict_get [(SStr "assignments", VStr "webshop")] "assignments"
            = Some (Seq (el :: rest)))
    by (intros (el & rest & Hget); discriminate).
  split; [reflexivity|]. split; [exact Hstart|]. split; [exact Hshape|].
  apply (assignments_schema_error_iff plain_repr posix_stem
           sample_start [(SStr "assignments", VStr "webshop")] sample_registry).
  split; [|exact Hshape]. exists sample_imports. by split.
Defined.

Lemma first_malformed_assignment_reported_witness :
  read_imports sample_registry = Ok sample_imports
  ∧ check_start (collect_task_names posix_stem sample_imports) sample_start = Ok tt
  ∧ task_refs (Map [(SStr "task", VStr "ghosttask-v2")]) = Some [VStr "ghosttask-v2"]
  ∧ task_refs (VStr "webshop") = None
  ∧ validate plain_repr posix_stem sample_start
      [(SStr "assignments",
        Seq ([Map [(SStr "task", VStr "ghosttask-v2")]]
             ++ VStr "webshop" :: [Map [(SStr "task", VInt 3)]]))]
      sample_registry
    = Err (RuntimeError "Each assignment must be a mapping").
Proof.
  assert (Hstart : check_start (collect_task_names posix_stem sample_imports) sample_start
                   = Ok tt) by (vm_compute; reflexivity).
  split; [reflexivity|]. split; [exact Hstart|]. split; [reflexivity|].
  split; [reflexivity|].
  apply (first_malformed_assignment_reported plain_repr posix_stem sample_start
           [(SStr "assignments",
             Seq ([Map [(SStr "task", VStr "ghosttask-v2")]]
                  ++ VStr "webshop" :: [Map [(SStr "task", VInt 3)]]))]
           sample_registry sample_imports
           [Map [(SStr "task", VStr "ghosttask-v2")]] (VStr "webshop")
           [Map [(SStr "task", VInt 3)]] eq_refl Hstart eq_refl);
    [|reflexivity].
  repeat constructor. by eexists.
Defined.

Lemma missing_file_reported_first_witness :
  f_exists (present (Map sample_start)) = true
  ∧ f_exists (File false (ReadError "No such file or directory")) = false
  ∧ main plain_repr posix_stem
      (World "/repo" (present (Map sample_start))
         (File false (ReadError "No such file or directory"))
         (File true (ReadError "mapping values are not allowed here")))
    = Err (RuntimeError "Missing required file: /repo/configs/assignments/lite.yaml").
Proof.
  split; [reflexivity|]. split; [reflexivity|].
  exact (proj1 (proj1 (proj2 (missing_file_reported_first plain_repr posix_stem
           (World "/repo" (present (Map sample_start))
              (File false (ReadError "No such file or directory"))
              (File true (ReadError "mapping values are not allowed here")))))
           eq_refl eq_refl)).
Defined.

Lemma load_failure_reported_before_validation_witness :
  load_yaml "/repo/configs/start_task_lite.yaml" (Decoded (Map unsorted_start))
  = Ok unsorted_start
  ∧ load_yaml "/repo/configs/assignments/lite.yaml"
      (ReadError "mapping values are not allowed here")
    = Err (RuntimeError "Failed to parse YAML: /repo/configs/assignments/lite.yaml: mapping values are not allowed here")
  ∧ main plain_repr posix_stem
      (World "/repo" (present (Map unsorted_start))
         (File true (ReadError "mapping values are not allowed here"))
         (present (Seq [VStr "webshop.yaml"])))
    = Err (RuntimeError "Failed to parse YAML: /repo/configs/assignments/lite.yaml: mapping values are not allowed here").
Proof.
  split; [reflexivity|]. split; [reflexivity|].
  exact (proj1 (proj2 (load_failure_reported_before_validation plain_repr posix_stem
           (World "/repo" (present (Map unsorted_start))
              (File true (ReadError "mapping values are not allowed here"))
              (present (Seq [VStr "webshop.yaml"])))
           _ eq_refl eq_refl eq_refl))
           unsorted_start eq_refl eq_refl).
Defined.

Lemma empty_start_document_lacks_start_field_witness :
  f_read (present VNone) = Decoded VNone
  ∧ read_imports sample_registry = Ok sample_imports
  ∧ main plain_repr posix_stem
      (World "/repo" (present VNone) (present (Map sample_assign))
         (present (Map sample_registry)))
    = Err (RuntimeError "configs/start_task_lite.yaml must have non-empty mapping field: start")
  ∧ exit_status (run plain_repr posix_stem
                   (World "/repo" (present VNone) (present (Map sample_assign))
                      (present (Map sample_registry)))) = 1.
Proof.
  split; [reflexivity|]. split; [reflexivity|].
  exact (empty_start_document_lacks_start_field plain_repr posix_stem
           (World "/repo" (present VNone) (present (Map sample_assign))
              (present (Map sample_registry)))
           sample_assign sample_registry sample_imports
           eq_refl eq_refl eq_refl (or_introl eq_refl) eq_refl eq_refl eq_refl).
Defined.

Lemma integer_reference_base_witness :
  (0 ≤ 7 ∧ base_identifier (int_str 7) = "7")
  ∧ (-5 < 0 ∧ int_str (-5) = "-5" ∧ base_identifier (int_str (-5)) = "").
Proof.
  split.
  - split; [lia|].
    exact (proj1 (proj1 (integer_reference_base 7) ltac:(lia))).
  - split; [lia|]. split; [reflexivity|].
    exact (proj1 (proj2 (integer_reference_base (-5)) ltac:(lia))).
Defined.
